(** * Package [bucket] and package [option] of aws-go-s3

    A shallow embedding of the per-bucket convenience layer over the
    S3 client interface, and the properties of its contract.

    Modelling conventions.
    - A Go [*string], [*int64] or [*bool] field is an optional value:
      [nil] is [None], and [aws.String v] is [Some v].  The packages
      never write through such a pointer (every assignment stores a
      pointer to a fresh value), so a pointer is identified with what
      it points to.  A pointer to a struct and an interface value are
      optional values in the same way.
    - A Go [string] is a sequence of bytes, here [string] over [ascii].
      An [int64] and an [int] are integers in [Z]; the packages store
      and compare them and do no arithmetic on them.
    - Go's [error] is an interface value: [nil] or a dynamic value.
    - The client, the options and the page callbacks are code supplied
      by the caller.  They may have effects; these are threaded through
      an abstract [World].  They are taken to return; a nil function
      among the options and a nil client are left out.
    - The receiver [b *Bucket] points to a mutable struct; the struct is
      a component of the state the methods run in.  A nil receiver is
      left out.
    - A nil pointer dereference the packages can run into themselves is
      a panic.

    The pointer a handle shares with its requests, and caller code that
    writes through it or panics, are the subject of a second embedding,
    [pointers], which keeps pointers as locations in a store. *)

From Stdlib Require Import String Ascii List ZArith NArith Bool Lia.
Import ListNotations.
Open Scope string_scope.

Set Implicit Arguments.

(** ** Types taken from the dependencies

    The bucket package passes values of these types around and never
    looks inside them.  [World] stands for whatever the caller-supplied
    code (client, options, callbacks) can read and change. *)
Record Externals : Type := {
  World : Type;
  io_ReadSeeker : Type;
  io_ReadCloser : Type;
  aws_Context : Type;
  request_Request : Type;
  s3_HeadObjectOutput : Type;
  s3_PutObjectOutput : Type;
  s3_DeleteObjectOutput : Type;
  s3_DeleteObjectsOutput : Type;
  s3_ListObjectsOutput : Type;
  s3_ListObjectsV2Output : Type;
  s3_ListObjectVersionsOutput : Type;
  s3_CopyObjectOutput : Type
}.

(** Caller-supplied code: a computation over the caller's world. *)
Definition Effect (T : Externals) (A : Type) : Type := World T -> A * World T.

(** ** Errors *)

Module awserr.

(** What the methods of the interface [awserr.RequestFailure] return. *)
Record RequestFailure := {
  Code : string;
  Message : string;
  StatusCode : Z;
  RequestID : string
}.

End awserr.

(** The dynamic value of a non-nil [error]: an error of some type that
    implements none of the [awserr] interfaces, an [url.EscapeError], an
    [awserr.Error] that is not a request failure, or a value that
    implements [awserr.RequestFailure]. *)
Inductive error_value :=
| PlainError (text : string)
| EscapeError (fragment : string)
| AwsError (code message : string)
| AwsRequestFailure (rf : awserr.RequestFailure).

(** [error]: [nil] is [None]. *)
Definition error := option error_value.

(** The type assertion [err.(awserr.RequestFailure)] in its comma-ok
    form: [Some] exactly when the dynamic type implements the interface. *)
Definition assert_RequestFailure (err : error) : option awserr.RequestFailure :=
  match err with
  | Some (AwsRequestFailure rf) => Some rf
  | _ => None
  end.

Module http.

Definition StatusNotFound : Z := 404.

End http.

Module aws.

Definition String (v : string) : option string := Some v.

Definition Int64 (v : Z) : option Z := Some v.

(** [aws.StringValue]: the value pointed to, or the empty string for nil. *)
Definition StringValue (p : option string) : string :=
  match p with
  | Some v => v
  | None => ""
  end.

End aws.

(** ** [net/url]: query escaping

    [url.QueryEscape] and [url.QueryUnescape] of the Go standard
    library, in the one mode they use ([encodeQueryComponent]). *)

Module url.

Definition between (lo hi c : ascii) : bool :=
  (N_of_ascii lo <=? N_of_ascii c)%N && (N_of_ascii c <=? N_of_ascii hi)%N.

Definition is_one_of (cs : string) (c : ascii) : bool :=
  existsb (Ascii.eqb c) (list_ascii_of_string cs).

(** [shouldEscape(c, encodeQueryComponent)]. *)
Definition shouldEscape (c : ascii) : bool :=
  if between "a" "z" c || between "A" "Z" c || between "0" "9" c then false
  else if is_one_of "-_.~" c then false
  else if is_one_of "$&+,/:;=?@" c then true
  else true.

Definition upperhex : string := "0123456789ABCDEF".

Definition index (s : string) (i : N) : ascii :=
  match String.get (N.to_nat i) s with
  | Some c => c
  | None => "000"%char
  end.

(** The bytes one input byte contributes to the output of [escape]. *)
Definition escape_byte (c : ascii) : string :=
  if Ascii.eqb c " " then "+"
  else if shouldEscape c then
    String "%" (String (index upperhex (N.shiftr (N_of_ascii c) 4))
               (String (index upperhex (N.land (N_of_ascii c) 15)) ""))
  else String c "".

(** [escape(s, encodeQueryComponent)].  The two early exits of the Go
    function (nothing to escape, only spaces to replace) return what the
    general loop returns, so the loop alone is modelled. *)
Fixpoint escape (s : string) : string :=
  match s with
  | EmptyString => ""
  | String c rest => escape_byte c ++ escape rest
  end.

Definition QueryEscape (s : string) : string := escape s.

Definition ishex (c : ascii) : bool :=
  between "0" "9" c || between "a" "f" c || between "A" "F" c.

Definition unhex (c : ascii) : N :=
  if between "0" "9" c then N_of_ascii c - N_of_ascii "0"
  else if between "a" "f" c then N_of_ascii c - N_of_ascii "a" + 10
  else if between "A" "F" c then N_of_ascii c - N_of_ascii "A" + 10
  else 0.

(** [s[:3]] for a string known to start with a percent sign. *)
Definition first3 (s : string) : string := String.substring 0 3 s.

(** [unescape(s, encodeQueryComponent)]: the decoded string, or the
    [EscapeError] fragment at the first malformed percent sign. *)
Fixpoint unescape (s : string) : string + string :=
  match s with
  | EmptyString => inl ""
  | String c rest =>
    if Ascii.eqb c "%" then
      match rest with
      | String h (String l rest') =>
        if ishex h && ishex l then
          match unescape rest' with
          | inl t => inl (String (ascii_of_N (N.lor (N.shiftl (unhex h) 4) (unhex l))) t)
          | inr e => inr e
          end
        else inr (first3 s)
      | _ => inr (first3 s)
      end
    else
      match unescape rest with
      | inl t => inl (String (if Ascii.eqb c "+" then " "%char else c) t)
      | inr e => inr e
      end
  end.

(** [url.QueryUnescape]: on failure the string is empty and the error
    is an [url.EscapeError]. *)
Definition QueryUnescape (s : string) : string * error :=
  match unescape s with
  | inl t => (t, None)
  | inr e => ("", Some (EscapeError e))
  end.

End url.

(** ** The request and result structs of the SDK

    Each record lists the fields of the SDK struct that the packages
    name, and some of its further optional fields.  A composite literal
    leaves every field it does not name at its zero value ([None], or
    the empty slice), those that are not listed here as well. *)

Module s3.

Definition ObjectCannedACLPrivate : string := "private".

Definition ObjectCannedACLPublicRead : string := "public-read".

Module GetObjectInput.
Record t := {
  Bucket : option string;
  Key : option string;
  Range : option string;
  VersionId : option string
}.
End GetObjectInput.

Module GetObjectOutput.
Record t (T : Externals) := {
  Body : option (io_ReadCloser T);
  ContentLength : option Z;
  ContentType : option string
}.
End GetObjectOutput.

Module HeadObjectInput.
Record t := {
  Bucket : option string;
  Key : option string;
  Range : option string;
  VersionId : option string
}.
End HeadObjectInput.

Module PutObjectInput.
Record t (T : Externals) := {
  ACL : option string;
  Body : option (io_ReadSeeker T);
  Bucket : option string;
  ContentLength : option Z;
  ContentType : option string;
  Key : option string;
  SSEKMSKeyId : option string;
  ServerSideEncryption : option string
}.

(** The assignments [req.F = v] the put options make. *)
Definition set_ACL T (v : option string) (req : t T) : t T :=
  {| ACL := v; Body := Body req; Bucket := Bucket req;
     ContentLength := ContentLength req; ContentType := ContentType req;
     Key := Key req; SSEKMSKeyId := SSEKMSKeyId req;
     ServerSideEncryption := ServerSideEncryption req |}.

Definition set_ContentLength T (v : option Z) (req : t T) : t T :=
  {| ACL := ACL req; Body := Body req; Bucket := Bucket req;
     ContentLength := v; ContentType := ContentType req;
     Key := Key req; SSEKMSKeyId := SSEKMSKeyId req;
     ServerSideEncryption := ServerSideEncryption req |}.

Definition set_ContentType T (v : option string) (req : t T) : t T :=
  {| ACL := ACL req; Body := Body req; Bucket := Bucket req;
     ContentLength := ContentLength req; ContentType := v;
     Key := Key req; SSEKMSKeyId := SSEKMSKeyId req;
     ServerSideEncryption := ServerSideEncryption req |}.

Definition set_SSEKMSKeyId T (v : option string) (req : t T) : t T :=
  {| ACL := ACL req; Body := Body req; Bucket := Bucket req;
     ContentLength := ContentLength req; ContentType := ContentType req;
     Key := Key req; SSEKMSKeyId := v;
     ServerSideEncryption := ServerSideEncryption req |}.

Definition set_ServerSideEncryption T (v : option string) (req : t T) : t T :=
  {| ACL := ACL req; Body := Body req; Bucket := Bucket req;
     ContentLength := ContentLength req; ContentType := ContentType req;
     Key := Key req; SSEKMSKeyId := SSEKMSKeyId req;
     ServerSideEncryption := v |}.
End PutObjectInput.

Module DeleteObjectInput.
Record t := {
  Bucket : option string;
  BypassGovernanceRetention : option bool;
  ExpectedBucketOwner : option string;
  Key : option string;
  MFA : option string;
  RequestPayer : option string;
  VersionId : option string
}.
End DeleteObjectInput.

Module ObjectIdentifier.
Record t := {
  Key : option string;
  VersionId : option string
}.
End ObjectIdentifier.

Module Delete.
Record t := {
  Objects : list (option ObjectIdentifier.t);
  Quiet : option bool
}.
End Delete.

Module DeleteObjectsInput.
Record t := {
  Bucket : option string;
  BypassGovernanceRetention : option bool;
  Delete : option Delete.t;
  ExpectedBucketOwner : option string;
  MFA : option string;
  RequestPayer : option string
}.
End DeleteObjectsInput.

Module ListObjectsInput.
Record t := {
  Bucket : option string;
  Delimiter : option string;
  Marker : option string;
  MaxKeys : option Z;
  Prefix : option string
}.
End ListObjectsInput.

Module ListObjectsV2Input.
Record t := {
  Bucket : option string;
  ContinuationToken : option string;
  Delimiter : option string;
  MaxKeys : option Z;
  Prefix : option string;
  StartAfter : option string
}.
End ListObjectsV2Input.

Module ListObjectVersionsInput.
Record t := {
  Bucket : option string;
  Delimiter : option string;
  KeyMarker : option string;
  MaxKeys : option Z;
  Prefix : option string;
  VersionIdMarker : option string
}.
End ListObjectVersionsInput.

Module CopyObjectInput.
Record t := {
  ACL : option string;
  Bucket : option string;
  ContentType : option string;
  CopySource : option string;
  Key : option string;
  MetadataDirective : option string;
  SSEKMSKeyId : option string;
  ServerSideEncryption : option string
}.
End CopyObjectInput.

End s3.

(** ** The client interface [s3iface.S3API]

    The ten methods the bucket package calls.  A page callback is
    caller code as well. *)

Module s3iface.

Record S3API (T : Externals) := {
  GetObject :
    s3.GetObjectInput.t -> Effect T (option (s3.GetObjectOutput.t T) * error);
  GetObjectRequest :
    s3.GetObjectInput.t ->
    Effect T (option (request_Request T) * option (s3.GetObjectOutput.t T));
  HeadObject :
    s3.HeadObjectInput.t -> Effect T (option (s3_HeadObjectOutput T) * error);
  PutObject :
    s3.PutObjectInput.t T -> Effect T (option (s3_PutObjectOutput T) * error);
  DeleteObject :
    s3.DeleteObjectInput.t -> Effect T (option (s3_DeleteObjectOutput T) * error);
  DeleteObjects :
    s3.DeleteObjectsInput.t -> Effect T (option (s3_DeleteObjectsOutput T) * error);
  ListObjects :
    s3.ListObjectsInput.t -> Effect T (option (s3_ListObjectsOutput T) * error);
  ListObjectsV2PagesWithContext :
    aws_Context T -> s3.ListObjectsV2Input.t ->
    (option (s3_ListObjectsV2Output T) -> bool -> Effect T bool) ->
    Effect T error;
  ListObjectVersionsPagesWithContext :
    aws_Context T -> s3.ListObjectVersionsInput.t ->
    (option (s3_ListObjectVersionsOutput T) -> bool -> Effect T bool) ->
    Effect T error;
  CopyObject :
    s3.CopyObjectInput.t -> Effect T (option (s3_CopyObjectOutput T) * error)
}.

End s3iface.

(** ** Running Go code

    A method runs in a state and either returns a value or panics; both
    leave a state behind. *)

Inductive outcome (S A : Type) :=
| Return (a : A) (s : S)
| Panic (reason : string) (s : S).

Arguments Return {S A} a s.
Arguments Panic {S A} reason s.

Definition M (S A : Type) : Type := S -> outcome S A.

Definition ret {S A} (a : A) : M S A := fun s => Return a s.

Definition bind {S A B} (m : M S A) (k : A -> M S B) : M S B :=
  fun s =>
    match m s with
    | Return a s' => k a s'
    | Panic reason s' => Panic reason s'
    end.

Definition panic {S A} (reason : string) : M S A := fun s => Panic reason s.

(** The state a run leaves. *)
Definition final_state {S A} (o : outcome S A) : S :=
  match o with
  | Return _ s => s
  | Panic _ s => s
  end.

Declare Scope go_scope.
Delimit Scope go_scope with go.

Notation "x <- m ;; k" := (bind m (fun x => k))
  (at level 61, m at next level, right associativity) : go_scope.

Notation "' pat <- m ;; k" := (bind m (fun x => match x with pat => k end))
  (at level 61, pat pattern, m at next level, right associativity) : go_scope.

(** ** Package [option] *)

Module option.

Section Adapters.

Variable T : Externals.

(** [type PutObjectInput func(req *s3.PutObjectInput)]: the function
    receives the request and leaves it changed. *)
Definition PutObjectInput : Type :=
  s3.PutObjectInput.t T -> Effect T (s3.PutObjectInput.t T).

Definition SSEKMSKeyID (keyID : string) : PutObjectInput :=
  fun req w =>
    let req := s3.PutObjectInput.set_SSEKMSKeyId (aws.String keyID) req in
    let req := s3.PutObjectInput.set_ServerSideEncryption (aws.String "aws:kms") req in
    (req, w).

Definition SSES3 : PutObjectInput :=
  fun req w =>
    let req := s3.PutObjectInput.set_ServerSideEncryption (aws.String "AES256") req in
    (req, w).

Definition ACLPrivate : PutObjectInput :=
  fun req w =>
    let req := s3.PutObjectInput.set_ACL (aws.String s3.ObjectCannedACLPrivate) req in
    (req, w).

Definition ACLPublicRead : PutObjectInput :=
  fun req w =>
    let req := s3.PutObjectInput.set_ACL (aws.String s3.ObjectCannedACLPublicRead) req in
    (req, w).

Definition ContentType (ct : string) : PutObjectInput :=
  fun req w =>
    let req := s3.PutObjectInput.set_ContentType (aws.String ct) req in
    (req, w).

Definition ContentLength (length : Z) : PutObjectInput :=
  fun req w =>
    let req := s3.PutObjectInput.set_ContentLength (aws.Int64 length) req in
    (req, w).

(** The options the package provides for [PutObject]. *)
Inductive Provided : PutObjectInput -> Prop :=
| provided_SSEKMSKeyID keyID : Provided (SSEKMSKeyID keyID)
| provided_SSES3 : Provided SSES3
| provided_ACLPrivate : Provided ACLPrivate
| provided_ACLPublicRead : Provided ACLPublicRead
| provided_ContentType ct : Provided (ContentType ct)
| provided_ContentLength length : Provided (ContentLength length).

(** The adapter types of the other operations are declared in files of
    the package that are not at hand.  The bucket package calls their
    values as it calls a [PutObjectInput], on the request struct of the
    operation, so each is modelled as the same kind of function.  None
    of their constructors is modelled. *)

(** Modelled from the spec: the adapter type for [s3.GetObjectInput],
    whose declaration is missing. *)
Definition GetObjectInput : Type :=
  s3.GetObjectInput.t -> Effect T s3.GetObjectInput.t.

(** Modelled from the spec: the adapter type for [s3.HeadObjectInput],
    whose declaration is missing. *)
Definition HeadObjectInput : Type :=
  s3.HeadObjectInput.t -> Effect T s3.HeadObjectInput.t.

(** Modelled from the spec: the adapter type for [s3.ListObjectsInput],
    whose declaration is missing. *)
Definition ListObjectsInput : Type :=
  s3.ListObjectsInput.t -> Effect T s3.ListObjectsInput.t.

(** Modelled from the spec: the adapter type for [s3.ListObjectsV2Input],
    whose declaration is missing. *)
Definition ListObjectsV2Input : Type :=
  s3.ListObjectsV2Input.t -> Effect T s3.ListObjectsV2Input.t.

(** Modelled from the spec: the adapter type for
    [s3.ListObjectVersionsInput], whose declaration is missing. *)
Definition ListObjectVersionsInput : Type :=
  s3.ListObjectVersionsInput.t -> Effect T s3.ListObjectVersionsInput.t.

(** Modelled from the spec: the adapter type for [s3.CopyObjectInput],
    whose declaration is missing. *)
Definition CopyObjectInput : Type :=
  s3.CopyObjectInput.t -> Effect T s3.CopyObjectInput.t.

End Adapters.

End option.

(** ** Package [bucket] *)

Module bucket.

Section Methods.

Variable T : Externals.

Local Open Scope go_scope.

(** [type Bucket struct { S3 s3iface.S3API; Name *string }] *)
Record Bucket := {
  S3 : s3iface.S3API T;
  Name : option string
}.

Definition New (s : s3iface.S3API T) (name : string) : Bucket :=
  {| S3 := s; Name := aws.String name |}.

(** The state a method runs in: the struct its receiver [b] points to,
    and the caller's world. *)
Record State := {
  this : Bucket;
  world : World T
}.

Definition Method (A : Type) : Type := M State A.

(** Reading a field of the receiver: [b.S3], [b.Name]. *)
Definition field {A} (proj : Bucket -> A) : Method A :=
  fun s => Return (proj (this s)) s.

(** Calling caller-supplied code. *)
Definition call {A} (c : Effect T A) : Method A :=
  fun s =>
    let (a, w) := c (world s) in
    Return a {| this := this s; world := w |}.

(** [for _, f := range opts { f(req) }] *)
Fixpoint range_opts {Req} (opts : list (Req -> Effect T Req)) (req : Req)
  : Method Req :=
  match opts with
  | [] => ret req
  | f :: rest => req' <- call (f req) ;; range_opts rest req'
  end.

Definition is_nil {A} (x : option A) : bool :=
  match x with
  | None => true
  | Some _ => false
  end.

Definition GetObject (key : string) (opts : list (option.GetObjectInput T))
  : Method (option (s3.GetObjectOutput.t T) * error) :=
  name <- field Name ;;
  let req := {| s3.GetObjectInput.Bucket := name;
                s3.GetObjectInput.Key := aws.String key;
                s3.GetObjectInput.Range := None;
                s3.GetObjectInput.VersionId := None |} in
  req <- range_opts opts req ;;
  client <- field S3 ;;
  call (s3iface.GetObject client req).

Definition GetObjectReader (key : string) (opts : list (option.GetObjectInput T))
  : Method (option (io_ReadCloser T) * error) :=
  ' (resp, err) <- GetObject key opts ;;
  if negb (is_nil err) then ret (None, err)
  else
    match resp with
    | Some out => ret (s3.GetObjectOutput.Body out, None)
    | None => panic "invalid memory address or nil pointer dereference"
    end.

Definition GetObjectRequest (key : string) (opts : list (option.GetObjectInput T))
  : Method (option (request_Request T) * option (s3.GetObjectOutput.t T)) :=
  name <- field Name ;;
  let req := {| s3.GetObjectInput.Bucket := name;
                s3.GetObjectInput.Key := aws.String key;
                s3.GetObjectInput.Range := None;
                s3.GetObjectInput.VersionId := None |} in
  req <- range_opts opts req ;;
  client <- field S3 ;;
  call (s3iface.GetObjectRequest client req).

Definition HeadObject (key : string) (opts : list (option.HeadObjectInput T))
  : Method (option (s3_HeadObjectOutput T) * error) :=
  name <- field Name ;;
  let req := {| s3.HeadObjectInput.Bucket := name;
                s3.HeadObjectInput.Key := aws.String key;
                s3.HeadObjectInput.Range := None;
                s3.HeadObjectInput.VersionId := None |} in
  req <- range_opts opts req ;;
  client <- field S3 ;;
  call (s3iface.HeadObject client req).

Definition ExistsObject (key : string) (opts : list (option.HeadObjectInput T))
  : Method (bool * error) :=
  ' (_, err) <- HeadObject key opts ;;
  if is_nil err then ret (true, None)
  else
    match assert_RequestFailure err with
    | Some s3err =>
      if (awserr.StatusCode s3err =? http.StatusNotFound)%Z
      then ret (false, None)
      else ret (false, err)
    | None => ret (false, err)
    end.

Definition PutObject (key : string) (rs : option (io_ReadSeeker T))
    (opts : list (option.PutObjectInput T))
  : Method (option (s3_PutObjectOutput T) * error) :=
  name <- field Name ;;
  let req := {| s3.PutObjectInput.ACL := None;
                s3.PutObjectInput.Body := rs;
                s3.PutObjectInput.Bucket := name;
                s3.PutObjectInput.ContentLength := None;
                s3.PutObjectInput.ContentType := None;
                s3.PutObjectInput.Key := aws.String key;
                s3.PutObjectInput.SSEKMSKeyId := None;
                s3.PutObjectInput.ServerSideEncryption := None |} in
  req <- range_opts opts req ;;
  client <- field S3 ;;
  call (s3iface.PutObject client req).

Definition DeleteObject (key : string)
  : Method (option (s3_DeleteObjectOutput T) * error) :=
  name <- field Name ;;
  let req := {| s3.DeleteObjectInput.Bucket := name;
                s3.DeleteObjectInput.BypassGovernanceRetention := None;
                s3.DeleteObjectInput.ExpectedBucketOwner := None;
                s3.DeleteObjectInput.Key := aws.String key;
                s3.DeleteObjectInput.MFA := None;
                s3.DeleteObjectInput.RequestPayer := None;
                s3.DeleteObjectInput.VersionId := None |} in
  client <- field S3 ;;
  call (s3iface.DeleteObject client req).

Definition DeleteObjects (identifiers : list (option s3.ObjectIdentifier.t))
  : Method (option (s3_DeleteObjectsOutput T) * error) :=
  name <- field Name ;;
  let req := {| s3.DeleteObjectsInput.Bucket := name;
                s3.DeleteObjectsInput.BypassGovernanceRetention := None;
                s3.DeleteObjectsInput.Delete :=
                  Some {| s3.Delete.Objects := identifiers;
                          s3.Delete.Quiet := None |};
                s3.DeleteObjectsInput.ExpectedBucketOwner := None;
                s3.DeleteObjectsInput.MFA := None;
                s3.DeleteObjectsInput.RequestPayer := None |} in
  client <- field S3 ;;
  call (s3iface.DeleteObjects client req).

Definition ListObjects (prefix : string) (opts : list (option.ListObjectsInput T))
  : Method (option (s3_ListObjectsOutput T) * error) :=
  name <- field Name ;;
  let req := {| s3.ListObjectsInput.Bucket := name;
                s3.ListObjectsInput.Delimiter := None;
                s3.ListObjectsInput.Marker := None;
                s3.ListObjectsInput.MaxKeys := None;
                s3.ListObjectsInput.Prefix := aws.String prefix |} in
  req <- range_opts opts req ;;
  client <- field S3 ;;
  call (s3iface.ListObjects client req).

Definition ListObjectsV2PagesWithContext (ctx : aws_Context T) (prefix : string)
    (pageFunc : option (s3_ListObjectsV2Output T) -> bool -> Effect T bool)
    (opts : list (option.ListObjectsV2Input T))
  : Method error :=
  name <- field Name ;;
  let req := {| s3.ListObjectsV2Input.Bucket := name;
                s3.ListObjectsV2Input.ContinuationToken := None;
                s3.ListObjectsV2Input.Delimiter := None;
                s3.ListObjectsV2Input.MaxKeys := None;
                s3.ListObjectsV2Input.Prefix := aws.String prefix;
                s3.ListObjectsV2Input.StartAfter := None |} in
  req <- range_opts opts req ;;
  client <- field S3 ;;
  call (s3iface.ListObjectsV2PagesWithContext client ctx req pageFunc).

Definition ListObjectVersionsPagesWithContext (ctx : aws_Context T) (prefix : string)
    (pageFunc : option (s3_ListObjectVersionsOutput T) -> bool -> Effect T bool)
    (opts : list (option.ListObjectVersionsInput T))
  : Method error :=
  name <- field Name ;;
  let req := {| s3.ListObjectVersionsInput.Bucket := name;
                s3.ListObjectVersionsInput.Delimiter := None;
                s3.ListObjectVersionsInput.KeyMarker := None;
                s3.ListObjectVersionsInput.MaxKeys := None;
                s3.ListObjectVersionsInput.Prefix := aws.String prefix;
                s3.ListObjectVersionsInput.VersionIdMarker := None |} in
  req <- range_opts opts req ;;
  client <- field S3 ;;
  call (s3iface.ListObjectVersionsPagesWithContext client ctx req pageFunc).

Definition CopyObject (dest src : string) (opts : list (option.CopyObjectInput T))
  : Method (option (s3_CopyObjectOutput T) * error) :=
  name <- field Name ;;
  name' <- field Name ;;
  let req := {| s3.CopyObjectInput.ACL := None;
                s3.CopyObjectInput.Bucket := name;
                s3.CopyObjectInput.ContentType := None;
                s3.CopyObjectInput.CopySource :=
                  aws.String (aws.StringValue name' ++ "/" ++ url.QueryEscape src);
                s3.CopyObjectInput.Key := aws.String dest;
                s3.CopyObjectInput.MetadataDirective := None;
                s3.CopyObjectInput.SSEKMSKeyId := None;
                s3.CopyObjectInput.ServerSideEncryption := None |} in
  req <- range_opts opts req ;;
  client <- field S3 ;;
  call (s3iface.CopyObject client req).

End Methods.

End bucket.

(** ** Vocabulary of the contract *)

Section Contract.

Variable T : Externals.

(** The options of a call applied one after the other, left to right,
    to a request, the world being threaded along. *)
Definition applied {Req} (opts : list (Req -> Effect T Req)) (req : Req)
    (w : World T) : Req * World T :=
  fold_left (fun rw f => f (fst rw) (snd rw)) opts (req, w).

(** The state in which the client is called: the receiver as the method
    found it, the world as the options left it. *)
Definition after_options {Req} (s : bucket.State T) (rw : Req * World T)
  : bucket.State T :=
  {| bucket.this := bucket.this s; bucket.world := snd rw |}.

(** The request each method builds before it runs the options. *)
Definition base_GetObject (b : bucket.Bucket T) (key : string)
  : s3.GetObjectInput.t :=
  {| s3.GetObjectInput.Bucket := bucket.Name b;
     s3.GetObjectInput.Key := Some key;
     s3.GetObjectInput.Range := None;
     s3.GetObjectInput.VersionId := None |}.

Definition base_HeadObject (b : bucket.Bucket T) (key : string)
  : s3.HeadObjectInput.t :=
  {| s3.HeadObjectInput.Bucket := bucket.Name b;
     s3.HeadObjectInput.Key := Some key;
     s3.HeadObjectInput.Range := None;
     s3.HeadObjectInput.VersionId := None |}.

Definition base_PutObject (b : bucket.Bucket T) (key : string)
    (rs : option (io_ReadSeeker T)) : s3.PutObjectInput.t T :=
  {| s3.PutObjectInput.ACL := None;
     s3.PutObjectInput.Body := rs;
     s3.PutObjectInput.Bucket := bucket.Name b;
     s3.PutObjectInput.ContentLength := None;
     s3.PutObjectInput.ContentType := None;
     s3.PutObjectInput.Key := Some key;
     s3.PutObjectInput.SSEKMSKeyId := None;
     s3.PutObjectInput.ServerSideEncryption := None |}.

Definition base_DeleteObject (b : bucket.Bucket T) (key : string)
  : s3.DeleteObjectInput.t :=
  {| s3.DeleteObjectInput.Bucket := bucket.Name b;
     s3.DeleteObjectInput.BypassGovernanceRetention := None;
     s3.DeleteObjectInput.ExpectedBucketOwner := None;
     s3.DeleteObjectInput.Key := Some key;
     s3.DeleteObjectInput.MFA := None;
     s3.DeleteObjectInput.RequestPayer := None;
     s3.DeleteObjectInput.VersionId := None |}.

Definition base_DeleteObjects (b : bucket.Bucket T)
    (identifiers : list (option s3.ObjectIdentifier.t))
  : s3.DeleteObjectsInput.t :=
  {| s3.DeleteObjectsInput.Bucket := bucket.Name b;
     s3.DeleteObjectsInput.BypassGovernanceRetention := None;
     s3.DeleteObjectsInput.Delete :=
       Some {| s3.Delete.Objects := identifiers; s3.Delete.Quiet := None |};
     s3.DeleteObjectsInput.ExpectedBucketOwner := None;
     s3.DeleteObjectsInput.MFA := None;
     s3.DeleteObjectsInput.RequestPayer := None |}.

Definition base_ListObjects (b : bucket.Bucket T) (prefix : string)
  : s3.ListObjectsInput.t :=
  {| s3.ListObjectsInput.Bucket := bucket.Name b;
     s3.ListObjectsInput.Delimiter := None;
     s3.ListObjectsInput.Marker := None;
     s3.ListObjectsInput.MaxKeys := None;
     s3.ListObjectsInput.Prefix := Some prefix |}.

Definition base_ListObjectsV2 (b : bucket.Bucket T) (prefix : string)
  : s3.ListObjectsV2Input.t :=
  {| s3.ListObjectsV2Input.Bucket := bucket.Name b;
     s3.ListObjectsV2Input.ContinuationToken := None;
     s3.ListObjectsV2Input.Delimiter := None;
     s3.ListObjectsV2Input.MaxKeys := None;
     s3.ListObjectsV2Input.Prefix := Some prefix;
     s3.ListObjectsV2Input.StartAfter := None |}.

Definition base_ListObjectVersions (b : bucket.Bucket T) (prefix : string)
  : s3.ListObjectVersionsInput.t :=
  {| s3.ListObjectVersionsInput.Bucket := bucket.Name b;
     s3.ListObjectVersionsInput.Delimiter := None;
     s3.ListObjectVersionsInput.KeyMarker := None;
     s3.ListObjectVersionsInput.MaxKeys := None;
     s3.ListObjectVersionsInput.Prefix := Some prefix;
     s3.ListObjectVersionsInput.VersionIdMarker := None |}.

Definition base_CopyObject (b : bucket.Bucket T) (dest src : string)
  : s3.CopyObjectInput.t :=
  {| s3.CopyObjectInput.ACL := None;
     s3.CopyObjectInput.Bucket := bucket.Name b;
     s3.CopyObjectInput.ContentType := None;
     s3.CopyObjectInput.CopySource :=
       Some (aws.StringValue (bucket.Name b) ++ "/" ++ url.QueryEscape src);
     s3.CopyObjectInput.Key := Some dest;
     s3.CopyObjectInput.MetadataDirective := None;
     s3.CopyObjectInput.SSEKMSKeyId := None;
     s3.CopyObjectInput.ServerSideEncryption := None |}.

(** An option leaves a field of the request as it found it. *)
Definition keeps {Req A} (proj : Req -> A) (f : Req -> Effect T Req) : Prop :=
  forall req w, proj (fst (f req w)) = proj req.

(** Modelled from the spec: the constructors of the get, head, list,
    list-v2, list-versions and copy options are not in the source.  The
    spec describes them as setters of one field each, like the put
    options, and says of every option that it may only add or override
    additional fields and never unsets the bucket or the key.  An
    option of these families is any function that keeps the bucket and
    the key (or prefix) of the request. *)
Definition additional_fields_only {Req} (bucket_of key_of : Req -> option string)
    (f : Req -> Effect T Req) : Prop :=
  keeps bucket_of f /\ keeps key_of f.

(** The fields of [s3.PutObjectInput], and a view of what each holds. *)
Inductive put_field :=
| F_ACL
| F_Body
| F_Bucket
| F_ContentLength
| F_ContentType
| F_Key
| F_SSEKMSKeyId
| F_ServerSideEncryption.

Inductive field_value :=
| StringField (v : option string)
| Int64Field (v : option Z)
| BodyField (v : option (io_ReadSeeker T)).

Definition read (f : put_field) (req : s3.PutObjectInput.t T) : field_value :=
  match f with
  | F_ACL => StringField (s3.PutObjectInput.ACL req)
  | F_Body => BodyField (s3.PutObjectInput.Body req)
  | F_Bucket => StringField (s3.PutObjectInput.Bucket req)
  | F_ContentLength => Int64Field (s3.PutObjectInput.ContentLength req)
  | F_ContentType => StringField (s3.PutObjectInput.ContentType req)
  | F_Key => StringField (s3.PutObjectInput.Key req)
  | F_SSEKMSKeyId => StringField (s3.PutObjectInput.SSEKMSKeyId req)
  | F_ServerSideEncryption =>
    StringField (s3.PutObjectInput.ServerSideEncryption req)
  end.

(** An option assigns a field when some request comes out of it with
    that field changed. *)
Definition assigns (o : option.PutObjectInput T) (f : put_field) : Prop :=
  exists req w, read f (fst (o req w)) <> read f req.

(** What [GetObjectReader] would return if it handed on the result of
    the client as it is: the stream of the output, and the error. *)
Definition stream_of (resp : option (s3.GetObjectOutput.t T))
  : option (io_ReadCloser T) :=
  match resp with
  | Some out => s3.GetObjectOutput.Body out
  | None => None
  end.

End Contract.

(** ** A test double for the client

    The world is a journal of the calls the client has received.  The
    client answers from the key of the request. *)

Module double.

Definition Types : Externals :=
  {| World := list string;
     io_ReadSeeker := string;
     io_ReadCloser := string;
     aws_Context := unit;
     request_Request := string;
     s3_HeadObjectOutput := string;
     s3_PutObjectOutput := string;
     s3_DeleteObjectOutput := string;
     s3_DeleteObjectsOutput := string;
     s3_ListObjectsOutput := string;
     s3_ListObjectsV2Output := string;
     s3_ListObjectVersionsOutput := string;
     s3_CopyObjectOutput := string |}.

Definition note (op : string) (b k : option string) (w : list string)
  : list string :=
  w ++ [op ++ " " ++ aws.StringValue b ++ "/" ++ aws.StringValue k].

Definition not_found : error :=
  Some (AwsRequestFailure
          {| awserr.Code := "NotFound"; awserr.Message := "Not Found";
             awserr.StatusCode := 404; awserr.RequestID := "R1" |}).

Definition forbidden : error :=
  Some (AwsRequestFailure
          {| awserr.Code := "Forbidden"; awserr.Message := "Forbidden";
             awserr.StatusCode := 403; awserr.RequestID := "R2" |}).

Definition reset : error := Some (PlainError "connection reset by peer").

Definition answer (k : option string) : error :=
  if String.eqb (aws.StringValue k) "missing" then not_found
  else if String.eqb (aws.StringValue k) "secret" then forbidden
  else if String.eqb (aws.StringValue k) "broken" then reset
  else None.

Definition object : s3.GetObjectOutput.t Types :=
  @s3.GetObjectOutput.Build_t Types (Some "content") (Some 7%Z) (Some "text/plain").

Definition GetObject (req : s3.GetObjectInput.t)
  : Effect Types (option (s3.GetObjectOutput.t Types) * error) :=
  fun w =>
    ((Some object, answer (s3.GetObjectInput.Key req)),
     note "GetObject" (s3.GetObjectInput.Bucket req) (s3.GetObjectInput.Key req) w).

Definition GetObjectRequest (req : s3.GetObjectInput.t)
  : Effect Types (option string * option (s3.GetObjectOutput.t Types)) :=
  fun w =>
    ((Some "request", Some object),
     note "GetObjectRequest" (s3.GetObjectInput.Bucket req)
          (s3.GetObjectInput.Key req) w).

Definition HeadObject (req : s3.HeadObjectInput.t)
  : Effect Types (option string * error) :=
  fun w =>
    ((match answer (s3.HeadObjectInput.Key req) with
      | None => Some "metadata"
      | Some _ => None
      end, answer (s3.HeadObjectInput.Key req)),
     note "HeadObject" (s3.HeadObjectInput.Bucket req)
          (s3.HeadObjectInput.Key req) w).

Definition PutObject (req : s3.PutObjectInput.t Types)
  : Effect Types (option string * error) :=
  fun w =>
    ((Some "stored", answer (s3.PutObjectInput.Key req)),
     note "PutObject" (s3.PutObjectInput.Bucket req) (s3.PutObjectInput.Key req) w).

Definition DeleteObject (req : s3.DeleteObjectInput.t)
  : Effect Types (option string * error) :=
  fun w =>
    ((Some "deleted", answer (s3.DeleteObjectInput.Key req)),
     note "DeleteObject" (s3.DeleteObjectInput.Bucket req)
          (s3.DeleteObjectInput.Key req) w).

Definition DeleteObjects (req : s3.DeleteObjectsInput.t)
  : Effect Types (option string * error) :=
  fun w =>
    ((Some "batch", None),
     note "DeleteObjects" (s3.DeleteObjectsInput.Bucket req) None w).

Definition ListObjects (req : s3.ListObjectsInput.t)
  : Effect Types (option string * error) :=
  fun w =>
    ((Some "page", None),
     note "ListObjects" (s3.ListObjectsInput.Bucket req)
          (s3.ListObjectsInput.Prefix req) w).

Definition ListObjectsV2PagesWithContext (ctx : unit)
    (req : s3.ListObjectsV2Input.t)
    (pageFunc : option string -> bool -> Effect Types bool)
  : Effect Types error :=
  fun w =>
    let (_, w) := pageFunc (Some "page 1") true w in
    (None,
     note "ListObjectsV2" (s3.ListObjectsV2Input.Bucket req)
          (s3.ListObjectsV2Input.Prefix req) w).

Definition ListObjectVersionsPagesWithContext (ctx : unit)
    (req : s3.ListObjectVersionsInput.t)
    (pageFunc : option string -> bool -> Effect Types bool)
  : Effect Types error :=
  fun w =>
    let (_, w) := pageFunc (Some "page 1") true w in
    (None,
     note "ListObjectVersions" (s3.ListObjectVersionsInput.Bucket req)
          (s3.ListObjectVersionsInput.Prefix req) w).

Definition CopyObject (req : s3.CopyObjectInput.t)
  : Effect Types (option string * error) :=
  fun w =>
    ((Some "copied", None),
     note "CopyObject" (s3.CopyObjectInput.Bucket req)
          (s3.CopyObjectInput.CopySource req) w).

Definition client : s3iface.S3API Types :=
  @s3iface.Build_S3API Types GetObject GetObjectRequest HeadObject PutObject
    DeleteObject DeleteObjects ListObjects ListObjectsV2PagesWithContext
    ListObjectVersionsPagesWithContext CopyObject.

(** Options a caller wrote, one for each operation other than put.
    Each assigns one additional field and notes in the journal that it
    ran. *)
Definition first_kilobyte : option.GetObjectInput Types :=
  fun req w =>
    ({| s3.GetObjectInput.Bucket := s3.GetObjectInput.Bucket req;
        s3.GetObjectInput.Key := s3.GetObjectInput.Key req;
        s3.GetObjectInput.Range := Some "bytes=0-1023";
        s3.GetObjectInput.VersionId := s3.GetObjectInput.VersionId req |},
     (w ++ ["option Range"])%list).

Definition ten_keys : option.ListObjectsInput Types :=
  fun req w =>
    ({| s3.ListObjectsInput.Bucket := s3.ListObjectsInput.Bucket req;
        s3.ListObjectsInput.Delimiter := s3.ListObjectsInput.Delimiter req;
        s3.ListObjectsInput.Marker := s3.ListObjectsInput.Marker req;
        s3.ListObjectsInput.MaxKeys := Some 10%Z;
        s3.ListObjectsInput.Prefix := s3.ListObjectsInput.Prefix req |},
     (w ++ ["option MaxKeys"])%list).

Definition replace_metadata : option.CopyObjectInput Types :=
  fun req w =>
    ({| s3.CopyObjectInput.ACL := s3.CopyObjectInput.ACL req;
        s3.CopyObjectInput.Bucket := s3.CopyObjectInput.Bucket req;
        s3.CopyObjectInput.ContentType := s3.CopyObjectInput.ContentType req;
        s3.CopyObjectInput.CopySource := s3.CopyObjectInput.CopySource req;
        s3.CopyObjectInput.Key := s3.CopyObjectInput.Key req;
        s3.CopyObjectInput.MetadataDirective := Some "REPLACE";
        s3.CopyObjectInput.SSEKMSKeyId := s3.CopyObjectInput.SSEKMSKeyId req;
        s3.CopyObjectInput.ServerSideEncryption :=
          s3.CopyObjectInput.ServerSideEncryption req |},
     (w ++ ["option MetadataDirective"])%list).

Definition this_version : option.HeadObjectInput Types :=
  fun req w =>
    ({| s3.HeadObjectInput.Bucket := s3.HeadObjectInput.Bucket req;
        s3.HeadObjectInput.Key := s3.HeadObjectInput.Key req;
        s3.HeadObjectInput.Range := s3.HeadObjectInput.Range req;
        s3.HeadObjectInput.VersionId := Some "v7" |},
     (w ++ ["option VersionId"])%list).

Definition after_march : option.ListObjectsV2Input Types :=
  fun req w =>
    ({| s3.ListObjectsV2Input.Bucket := s3.ListObjectsV2Input.Bucket req;
        s3.ListObjectsV2Input.ContinuationToken :=
          s3.ListObjectsV2Input.ContinuationToken req;
        s3.ListObjectsV2Input.Delimiter := s3.ListObjectsV2Input.Delimiter req;
        s3.ListObjectsV2Input.MaxKeys := s3.ListObjectsV2Input.MaxKeys req;
        s3.ListObjectsV2Input.Prefix := s3.ListObjectsV2Input.Prefix req;
        s3.ListObjectsV2Input.StartAfter := Some "2024/03" |},
     (w ++ ["option StartAfter"])%list).

Definition by_folder : option.ListObjectVersionsInput Types :=
  fun req w =>
    ({| s3.ListObjectVersionsInput.Bucket := s3.ListObjectVersionsInput.Bucket req;
        s3.ListObjectVersionsInput.Delimiter := Some "/";
        s3.ListObjectVersionsInput.KeyMarker :=
          s3.ListObjectVersionsInput.KeyMarker req;
        s3.ListObjectVersionsInput.MaxKeys := s3.ListObjectVersionsInput.MaxKeys req;
        s3.ListObjectVersionsInput.Prefix := s3.ListObjectVersionsInput.Prefix req;
        s3.ListObjectVersionsInput.VersionIdMarker :=
          s3.ListObjectVersionsInput.VersionIdMarker req |},
     (w ++ ["option Delimiter"])%list).

(** A page callback that notes the page and asks for the next one. *)
Definition every_page (page : option string) (last : bool) : Effect Types bool :=
  fun w => (true, note "page" None page w).

(** A context that is never cancelled. *)
Definition background : aws_Context Types := tt.

(** The content of an upload. *)
Definition bytes : option (io_ReadSeeker Types) := Some "bytes".

(** A handle on the bucket "photos" and the state of a first call. *)
Definition photos : bucket.Bucket Types := bucket.New client "photos".

Definition start : bucket.State Types :=
  {| bucket.this := photos; bucket.world := [] |}.

(** A client that answers [GetObject] with neither an output nor an
    error. *)
Definition silent : s3iface.S3API Types :=
  @s3iface.Build_S3API Types (fun _ w => ((None, None), w)) GetObjectRequest
    HeadObject PutObject DeleteObject DeleteObjects ListObjects
    ListObjectsV2PagesWithContext ListObjectVersionsPagesWithContext CopyObject.

End double.

(** ** The packages over a store of cells

    The embedding above identifies a pointer with the value it points
    to.  That hides one thing the bucket package does: every request it
    builds stores the pointer of the handle itself ([Bucket: b.Name]),
    so the caller's options and client are handed the very cell the
    handle reads its name from.  The embedding below keeps pointers:
    a [*string] is a location in a store of cells, [aws.String]
    allocates a fresh cell, and the caller's code runs on the store, can
    write through any pointer it is handed, and can panic (as a nil
    option does when it is called).  The handle struct itself is
    reachable from nothing the methods hand out. *)

Module pointers.

Definition loc : Type := nat.

Inductive cell :=
| StringCell (v : string)
| Int64Cell (v : Z)
| BoolCell (v : bool).

(** What the caller's code runs on: the cells and the caller's world. *)
Record Mem (T : Externals) := {
  cells : list cell;
  world : World T
}.

(** Caller-supplied code. *)
Definition Code (T : Externals) (A : Type) : Type := M (Mem T) A.

(** The cell a pointer points to; nil points to none. *)
Definition cell_at (cs : list cell) (p : option loc) : option cell :=
  match p with
  | Some l => nth_error cs l
  | None => None
  end.

Fixpoint put_cell (cs : list cell) (l : loc) (c : cell) : list cell :=
  match cs, l with
  | [], _ => []
  | _ :: rest, O => c :: rest
  | c0 :: rest, S l' => c0 :: put_cell rest l' c
  end.

(** [&v]: a fresh cell. *)
Definition new {T} (c : cell) : Code T (option loc) :=
  fun m =>
    Return (Some (length (cells m)))
           {| cells := cells m ++ [c]; world := world m |}.

(** [*p = v] for a [*string]. *)
Definition store_string {T} (p : option loc) (v : string) : Code T unit :=
  fun m =>
    match p with
    | Some l =>
      Return tt {| cells := put_cell (cells m) l (StringCell v); world := world m |}
    | None => Panic "invalid memory address or nil pointer dereference" m
    end.

Module aws.

Definition String {T} (v : string) : Code T (option loc) := new (StringCell v).

Definition Int64 {T} (v : Z) : Code T (option loc) := new (Int64Cell v).

(** [aws.StringValue]: the string pointed to, or the empty string for
    nil.  A pointer of Go always points to a cell of its type; the empty
    string stands in where a store has none. *)
Definition StringValue {T} (p : option loc) : Code T string :=
  fun m =>
    Return match cell_at (cells m) p with
           | Some (StringCell v) => v
           | _ => ""
           end m.

End aws.

(** The request structs, field for field as in [s3] above, with
    locations for pointers. *)
Module input.

Module GetObjectInput.
Record t := {
  Bucket : option loc;
  Key : option loc;
  Range : option loc;
  VersionId : option loc
}.
End GetObjectInput.

Module HeadObjectInput.
Record t := {
  Bucket : option loc;
  Key : option loc;
  Range : option loc;
  VersionId : option loc
}.
End HeadObjectInput.

Module PutObjectInput.
Record t (T : Externals) := {
  ACL : option loc;
  Body : option (io_ReadSeeker T);
  Bucket : option loc;
  ContentLength : option loc;
  ContentType : option loc;
  Key : option loc;
  SSEKMSKeyId : option loc;
  ServerSideEncryption : option loc
}.

Definition set_ACL T (v : option loc) (req : t T) : t T :=
  {| ACL := v; Body := Body req; Bucket := Bucket req;
     ContentLength := ContentLength req; ContentType := ContentType req;
     Key := Key req; SSEKMSKeyId := SSEKMSKeyId req;
     ServerSideEncryption := ServerSideEncryption req |}.

Definition set_ContentLength T (v : option loc) (req : t T) : t T :=
  {| ACL := ACL req; Body := Body req; Bucket := Bucket req;
     ContentLength := v; ContentType := ContentType req;
     Key := Key req; SSEKMSKeyId := SSEKMSKeyId req;
     ServerSideEncryption := ServerSideEncryption req |}.

Definition set_ContentType T (v : option loc) (req : t T) : t T :=
  {| ACL := ACL req; Body := Body req; Bucket := Bucket req;
     ContentLength := ContentLength req; ContentType := v;
     Key := Key req; SSEKMSKeyId := SSEKMSKeyId req;
     ServerSideEncryption := ServerSideEncryption req |}.

Definition set_SSEKMSKeyId T (v : option loc) (req : t T) : t T :=
  {| ACL := ACL req; Body := Body req; Bucket := Bucket req;
     ContentLength := ContentLength req; ContentType := ContentType req;
     Key := Key req; SSEKMSKeyId := v;
     ServerSideEncryption := ServerSideEncryption req |}.

Definition set_ServerSideEncryption T (v : option loc) (req : t T) : t T :=
  {| ACL := ACL req; Body := Body req; Bucket := Bucket req;
     ContentLength := ContentLength req; ContentType := ContentType req;
     Key := Key req; SSEKMSKeyId := SSEKMSKeyId req;
     ServerSideEncryption := v |}.
End PutObjectInput.

Module DeleteObjectInput.
Record t := {
  Bucket : option loc;
  BypassGovernanceRetention : option loc;
  ExpectedBucketOwner : option loc;
  Key : option loc;
  MFA : option loc;
  RequestPayer : option loc;
  VersionId : option loc
}.
End DeleteObjectInput.

Module ObjectIdentifier.
Record t := {
  Key : option loc;
  VersionId : option loc
}.
End ObjectIdentifier.

Module Delete.
Record t := {
  Objects : list (option ObjectIdentifier.t);
  Quiet : option loc
}.
End Delete.

Module DeleteObjectsInput.
Record t := {
  Bucket : option loc;
  BypassGovernanceRetention : option loc;
  Delete : option Delete.t;
  ExpectedBucketOwner : option loc;
  MFA : option loc;
  RequestPayer : option loc
}.
End DeleteObjectsInput.

Module ListObjectsInput.
Record t := {
  Bucket : option loc;
  Delimiter : option loc;
  Marker : option loc;
  MaxKeys : option loc;
  Prefix : option loc
}.
End ListObjectsInput.

Module ListObjectsV2Input.
Record t := {
  Bucket : option loc;
  ContinuationToken : option loc;
  Delimiter : option loc;
  MaxKeys : option loc;
  Prefix : option loc;
  StartAfter : option loc
}.
End ListObjectsV2Input.

Module ListObjectVersionsInput.
Record t := {
  Bucket : option loc;
  Delimiter : option loc;
  KeyMarker : option loc;
  MaxKeys : option loc;
  Prefix : option loc;
  VersionIdMarker : option loc
}.
End ListObjectVersionsInput.

Module CopyObjectInput.
Record t := {
  ACL : option loc;
  Bucket : option loc;
  ContentType : option loc;
  CopySource : option loc;
  Key : option loc;
  MetadataDirective : option loc;
  SSEKMSKeyId : option loc;
  ServerSideEncryption : option loc
}.
End CopyObjectInput.

End input.

(** The client interface, its methods being caller code on the store. *)
Module s3iface.

Record S3API (T : Externals) := {
  GetObject :
    input.GetObjectInput.t -> Code T (option (s3.GetObjectOutput.t T) * error);
  GetObjectRequest :
    input.GetObjectInput.t ->
    Code T (option (request_Request T) * option (s3.GetObjectOutput.t T));
  HeadObject :
    input.HeadObjectInput.t -> Code T (option (s3_HeadObjectOutput T) * error);
  PutObject :
    input.PutObjectInput.t T -> Code T (option (s3_PutObjectOutput T) * error);
  DeleteObject :
    input.DeleteObjectInput.t -> Code T (option (s3_DeleteObjectOutput T) * error);
  DeleteObjects :
    input.DeleteObjectsInput.t -> Code T (option (s3_DeleteObjectsOutput T) * error);
  ListObjects :
    input.ListObjectsInput.t -> Code T (option (s3_ListObjectsOutput T) * error);
  ListObjectsV2PagesWithContext :
    aws_Context T -> input.ListObjectsV2Input.t ->
    (option (s3_ListObjectsV2Output T) -> bool -> Code T bool) ->
    Code T error;
  ListObjectVersionsPagesWithContext :
    aws_Context T -> input.ListObjectVersionsInput.t ->
    (option (s3_ListObjectVersionsOutput T) -> bool -> Code T bool) ->
    Code T error;
  CopyObject :
    input.CopyObjectInput.t -> Code T (option (s3_CopyObjectOutput T) * error)
}.

End s3iface.

Module option.

Section Adapters.

Variable T : Externals.

Local Open Scope go_scope.

Definition PutObjectInput : Type :=
  input.PutObjectInput.t T -> Code T (input.PutObjectInput.t T).

Definition SSEKMSKeyID (keyID : string) : PutObjectInput :=
  fun req =>
    p <- aws.String keyID ;;
    let req := input.PutObjectInput.set_SSEKMSKeyId p req in
    q <- aws.String "aws:kms" ;;
    let req := input.PutObjectInput.set_ServerSideEncryption q req in
    ret req.

Definition SSES3 : PutObjectInput :=
  fun req =>
    p <- aws.String "AES256" ;;
    ret (input.PutObjectInput.set_ServerSideEncryption p req).

Definition ACLPrivate : PutObjectInput :=
  fun req =>
    p <- aws.String s3.ObjectCannedACLPrivate ;;
    ret (input.PutObjectInput.set_ACL p req).

Definition ACLPublicRead : PutObjectInput :=
  fun req =>
    p <- aws.String s3.ObjectCannedACLPublicRead ;;
    ret (input.PutObjectInput.set_ACL p req).

Definition ContentType (ct : string) : PutObjectInput :=
  fun req =>
    p <- aws.String ct ;;
    ret (input.PutObjectInput.set_ContentType p req).

Definition ContentLength (length : Z) : PutObjectInput :=
  fun req =>
    p <- aws.Int64 length ;;
    ret (input.PutObjectInput.set_ContentLength p req).

Inductive Provided : PutObjectInput -> Prop :=
| provided_SSEKMSKeyID keyID : Provided (SSEKMSKeyID keyID)
| provided_SSES3 : Provided SSES3
| provided_ACLPrivate : Provided ACLPrivate
| provided_ACLPublicRead : Provided ACLPublicRead
| provided_ContentType ct : Provided (ContentType ct)
| provided_ContentLength length : Provided (ContentLength length).

(** Modelled from the spec: the adapter type for [s3.GetObjectInput],
    whose declaration is missing. *)
Definition GetObjectInput : Type :=
  input.GetObjectInput.t -> Code T input.GetObjectInput.t.

(** Modelled from the spec: the adapter type for [s3.HeadObjectInput],
    whose declaration is missing. *)
Definition HeadObjectInput : Type :=
  input.HeadObjectInput.t -> Code T input.HeadObjectInput.t.

(** Modelled from the spec: the adapter type for [s3.ListObjectsInput],
    whose declaration is missing. *)
Definition ListObjectsInput : Type :=
  input.ListObjectsInput.t -> Code T input.ListObjectsInput.t.

(** Modelled from the spec: the adapter type for [s3.ListObjectsV2Input],
    whose declaration is missing. *)
Definition ListObjectsV2Input : Type :=
  input.ListObjectsV2Input.t -> Code T input.ListObjectsV2Input.t.

(** Modelled from the spec: the adapter type for
    [s3.ListObjectVersionsInput], whose declaration is missing. *)
Definition ListObjectVersionsInput : Type :=
  input.ListObjectVersionsInput.t -> Code T input.ListObjectVersionsInput.t.

(** Modelled from the spec: the adapter type for [s3.CopyObjectInput],
    whose declaration is missing. *)
Definition CopyObjectInput : Type :=
  input.CopyObjectInput.t -> Code T input.CopyObjectInput.t.

End Adapters.

End option.

Module bucket.

Section Methods.

Variable T : Externals.

Local Open Scope go_scope.

Record Bucket := {
  S3 : s3iface.S3API T;
  Name : option loc
}.

Definition New (s : s3iface.S3API T) (name : string) : Code T Bucket :=
  p <- aws.String name ;;
  ret {| S3 := s; Name := p |}.

(** The state a method runs in: the struct its receiver points to, and
    what the caller's code runs on. *)
Record State := {
  this : Bucket;
  mem : Mem T
}.

Definition Method (A : Type) : Type := M State A.

Definition field {A} (proj : Bucket -> A) : Method A :=
  fun s => Return (proj (this s)) s.

(** Running code on the store: the caller's code, an allocation, a
    read.  A panic of the code is a panic of the method. *)
Definition call {A} (c : Code T A) : Method A :=
  fun s =>
    match c (mem s) with
    | Return a m => Return a {| this := this s; mem := m |}
    | Panic reason m => Panic reason {| this := this s; mem := m |}
    end.

Fixpoint range_opts {Req} (opts : list (Req -> Code T Req)) (req : Req)
  : Method Req :=
  match opts with
  | [] => ret req
  | f :: rest => req' <- call (f req) ;; range_opts rest req'
  end.

Definition is_nil {A} (x : Datatypes.option A) : bool :=
  match x with
  | None => true
  | Some _ => false
  end.

Definition GetObject (key : string) (opts : list (option.GetObjectInput T))
  : Method (option (s3.GetObjectOutput.t T) * error) :=
  name <- field Name ;;
  k <- call (aws.String key) ;;
  let req := {| input.GetObjectInput.Bucket := name;
                input.GetObjectInput.Key := k;
                input.GetObjectInput.Range := None;
                input.GetObjectInput.VersionId := None |} in
  req <- range_opts opts req ;;
  client <- field S3 ;;
  call (s3iface.GetObject client req).

Definition GetObjectReader (key : string) (opts : list (option.GetObjectInput T))
  : Method (option (io_ReadCloser T) * error) :=
  ' (resp, err) <- GetObject key opts ;;
  if negb (is_nil err) then ret (None, err)
  else
    match resp with
    | Some out => ret (s3.GetObjectOutput.Body out, None)
    | None => panic "invalid memory address or nil pointer dereference"
    end.

Definition GetObjectRequest (key : string) (opts : list (option.GetObjectInput T))
  : Method (option (request_Request T) * option (s3.GetObjectOutput.t T)) :=
  name <- field Name ;;
  k <- call (aws.String key) ;;
  let req := {| input.GetObjectInput.Bucket := name;
                input.GetObjectInput.Key := k;
                input.GetObjectInput.Range := None;
                input.GetObjectInput.VersionId := None |} in
  req <- range_opts opts req ;;
  client <- field S3 ;;
  call (s3iface.GetObjectRequest client req).

Definition HeadObject (key : string) (opts : list (option.HeadObjectInput T))
  : Method (option (s3_HeadObjectOutput T) * error) :=
  name <- field Name ;;
  k <- call (aws.String key) ;;
  let req := {| input.HeadObjectInput.Bucket := name;
                input.HeadObjectInput.Key := k;
                input.HeadObjectInput.Range := None;
                input.HeadObjectInput.VersionId := None |} in
  req <- range_opts opts req ;;
  client <- field S3 ;;
  call (s3iface.HeadObject client req).

Definition ExistsObject (key : string) (opts : list (option.HeadObjectInput T))
  : Method (bool * error) :=
  ' (_, err) <- HeadObject key opts ;;
  if is_nil err then ret (true, None)
  else
    match assert_RequestFailure err with
    | Some s3err =>
      if (awserr.StatusCode s3err =? http.StatusNotFound)%Z
      then ret (false, None)
      else ret (false, err)
    | None => ret (false, err)
    end.

Definition PutObject (key : string) (rs : option (io_ReadSeeker T))
    (opts : list (option.PutObjectInput T))
  : Method (option (s3_PutObjectOutput T) * error) :=
  name <- field Name ;;
  k <- call (aws.String key) ;;
  let req := {| input.PutObjectInput.ACL := None;
                input.PutObjectInput.Body := rs;
                input.PutObjectInput.Bucket := name;
                input.PutObjectInput.ContentLength := None;
                input.PutObjectInput.ContentType := None;
                input.PutObjectInput.Key := k;
                input.PutObjectInput.SSEKMSKeyId := None;
                input.PutObjectInput.ServerSideEncryption := None |} in
  req <- range_opts opts req ;;
  client <- field S3 ;;
  call (s3iface.PutObject client req).

Definition DeleteObject (key : string)
  : Method (option (s3_DeleteObjectOutput T) * error) :=
  name <- field Name ;;
  k <- call (aws.String key) ;;
  let req := {| input.DeleteObjectInput.Bucket := name;
                input.DeleteObjectInput.BypassGovernanceRetention := None;
                input.DeleteObjectInput.ExpectedBucketOwner := None;
                input.DeleteObjectInput.Key := k;
                input.DeleteObjectInput.MFA := None;
                input.DeleteObjectInput.RequestPayer := None;
                input.DeleteObjectInput.VersionId := None |} in
  client <- field S3 ;;
  call (s3iface.DeleteObject client req).

Definition DeleteObjects (identifiers : list (option input.ObjectIdentifier.t))
  : Method (option (s3_DeleteObjectsOutput T) * error) :=
  name <- field Name ;;
  let req := {| input.DeleteObjectsInput.Bucket := name;
                input.DeleteObjectsInput.BypassGovernanceRetention := None;
                input.DeleteObjectsInput.Delete :=
                  Some {| input.Delete.Objects := identifiers;
                          input.Delete.Quiet := None |};
                input.DeleteObjectsInput.ExpectedBucketOwner := None;
                input.DeleteObjectsInput.MFA := None;
                input.DeleteObjectsInput.RequestPayer := None |} in
  client <- field S3 ;;
  call (s3iface.DeleteObjects client req).

Definition ListObjects (prefix : string) (opts : list (option.ListObjectsInput T))
  : Method (option (s3_ListObjectsOutput T) * error) :=
  name <- field Name ;;
  p <- call (aws.String prefix) ;;
  let req := {| input.ListObjectsInput.Bucket := name;
                input.ListObjectsInput.Delimiter := None;
                input.ListObjectsInput.Marker := None;
                input.ListObjectsInput.MaxKeys := None;
                input.ListObjectsInput.Prefix := p |} in
  req <- range_opts opts req ;;
  client <- field S3 ;;
  call (s3iface.ListObjects client req).

Definition ListObjectsV2PagesWithContext (ctx : aws_Context T) (prefix : string)
    (pageFunc : option (s3_ListObjectsV2Output T) -> bool -> Code T bool)
    (opts : list (option.ListObjectsV2Input T))
  : Method error :=
  name <- field Name ;;
  p <- call (aws.String prefix) ;;
  let req := {| input.ListObjectsV2Input.Bucket := name;
                input.ListObjectsV2Input.ContinuationToken := None;
                input.ListObjectsV2Input.Delimiter := None;
                input.ListObjectsV2Input.MaxKeys := None;
                input.ListObjectsV2Input.Prefix := p;
                input.ListObjectsV2Input.StartAfter := None |} in
  req <- range_opts opts req ;;
  client <- field S3 ;;
  call (s3iface.ListObjectsV2PagesWithContext client ctx req pageFunc).

Definition ListObjectVersionsPagesWithContext (ctx : aws_Context T) (prefix : string)
    (pageFunc : option (s3_ListObjectVersionsOutput T) -> bool -> Code T bool)
    (opts : list (option.ListObjectVersionsInput T))
  : Method error :=
  name <- field Name ;;
  p <- call (aws.String prefix) ;;
  let req := {| input.ListObjectVersionsInput.Bucket := name;
                input.ListObjectVersionsInput.Delimiter := None;
                input.ListObjectVersionsInput.KeyMarker := None;
                input.ListObjectVersionsInput.MaxKeys := None;
                input.ListObjectVersionsInput.Prefix := p;
                input.ListObjectVersionsInput.VersionIdMarker := None |} in
  req <- range_opts opts req ;;
  client <- field S3 ;;
  call (s3iface.ListObjectVersionsPagesWithContext client ctx req pageFunc).

Definition CopyObject (dest src : string) (opts : list (option.CopyObjectInput T))
  : Method (option (s3_CopyObjectOutput T) * error) :=
  name <- field Name ;;
  d <- call (aws.String dest) ;;
  name' <- field Name ;;
  v <- call (aws.StringValue name') ;;
  c <- call (aws.String (v ++ "/" ++ url.QueryEscape src)) ;;
  let req := {| input.CopyObjectInput.ACL := None;
                input.CopyObjectInput.Bucket := name;
                input.CopyObjectInput.ContentType := None;
                input.CopyObjectInput.CopySource := c;
                input.CopyObjectInput.Key := d;
                input.CopyObjectInput.MetadataDirective := None;
                input.CopyObjectInput.SSEKMSKeyId := None;
                input.CopyObjectInput.ServerSideEncryption := None |} in
  req <- range_opts opts req ;;
  client <- field S3 ;;
  call (s3iface.CopyObject client req).

End Methods.

End bucket.

End pointers.

(** ** Vocabulary for the name a handle shares with its requests *)

Section SharedName.

Variable T : Externals.

(** A pointer is nil or points into the store. *)
Definition allocated (p : option pointers.loc) (m : pointers.Mem T) : Prop :=
  match p with
  | Some l => l < length (pointers.cells m)
  | None => True
  end.

(** From one store to a later one, the cell a pointer points to is
    still there and holds what it held. *)
Definition same_cell (p : option pointers.loc) (m m' : pointers.Mem T) : Prop :=
  allocated p m ->
  allocated p m' /\
  pointers.cell_at (pointers.cells m') p = pointers.cell_at (pointers.cells m) p.

(** Caller code, an option, a client and a method that take every store
    to a store related to it by [R], whether they return or panic.  A
    paging method of the client may call the page callback, and is held
    to [R] when the callback is.  A method is also held to leave its
    receiver [b] as it is. *)
Definition code_respects (R : pointers.Mem T -> pointers.Mem T -> Prop) {A}
    (c : pointers.Code T A) : Prop :=
  forall m, R m (final_state (c m)).

Definition option_respects (R : pointers.Mem T -> pointers.Mem T -> Prop) {Req}
    (f : Req -> pointers.Code T Req) : Prop :=
  forall req, code_respects R (f req).

Definition client_respects (R : pointers.Mem T -> pointers.Mem T -> Prop)
    (c : pointers.s3iface.S3API T) : Prop :=
  (forall req, code_respects R (pointers.s3iface.GetObject c req)) /\
  (forall req, code_respects R (pointers.s3iface.GetObjectRequest c req)) /\
  (forall req, code_respects R (pointers.s3iface.HeadObject c req)) /\
  (forall req, code_respects R (pointers.s3iface.PutObject c req)) /\
  (forall req, code_respects R (pointers.s3iface.DeleteObject c req)) /\
  (forall req, code_respects R (pointers.s3iface.DeleteObjects c req)) /\
  (forall req, code_respects R (pointers.s3iface.ListObjects c req)) /\
  (forall ctx req pageFunc,
     (forall page last, code_respects R (pageFunc page last)) ->
     code_respects R
       (pointers.s3iface.ListObjectsV2PagesWithContext c ctx req pageFunc)) /\
  (forall ctx req pageFunc,
     (forall page last, code_respects R (pageFunc page last)) ->
     code_respects R
       (pointers.s3iface.ListObjectVersionsPagesWithContext c ctx req pageFunc)) /\
  (forall req, code_respects R (pointers.s3iface.CopyObject c req)).

Definition respects (R : pointers.Mem T -> pointers.Mem T -> Prop)
    (b : pointers.bucket.Bucket T) {A} (mth : pointers.bucket.Method T A) : Prop :=
  forall s,
    pointers.bucket.this s = b ->
    pointers.bucket.this (final_state (mth s)) = b /\
    R (pointers.bucket.mem s) (pointers.bucket.mem (final_state (mth s))).

(** Caller code, an option and a client that leave the cell of a
    pointer alone. *)
Definition code_keeps (p : option pointers.loc) {A} (c : pointers.Code T A) : Prop :=
  code_respects (same_cell p) c.

Definition option_keeps (p : option pointers.loc) {Req}
    (f : Req -> pointers.Code T Req) : Prop :=
  option_respects (same_cell p) f.

Definition client_keeps (p : option pointers.loc) (c : pointers.s3iface.S3API T)
  : Prop :=
  client_respects (same_cell p) c.

(** The name of the handle: the string its [Name] points to, as
    [aws.StringValue] reads it. *)
Definition handle_name (s : pointers.bucket.State T) : string :=
  match pointers.cell_at (pointers.cells (pointers.bucket.mem s))
                         (pointers.bucket.Name (pointers.bucket.this s)) with
  | Some (pointers.StringCell v) => v
  | _ => ""
  end.

End SharedName.

(** ** A test double over the store

    The journal notes each call with the bucket and the key as the
    client reads them from the cells of the request. *)

Module shared.

Definition Types : Externals := double.Types.

Definition text (cs : list pointers.cell) (p : option pointers.loc) : string :=
  match pointers.cell_at cs p with
  | Some (pointers.StringCell v) => v
  | _ => ""
  end.

Definition note {A} (op : string) (b k : option pointers.loc) (a : A)
  : pointers.Code Types A :=
  fun m =>
    Return a
      (@pointers.Build_Mem Types (pointers.cells m)
         (double.note op (Some (text (pointers.cells m) b))
                      (Some (text (pointers.cells m) k)) (pointers.world m))).

Definition client : pointers.s3iface.S3API Types :=
  @pointers.s3iface.Build_S3API Types
    (fun req =>
       note "GetObject" (pointers.input.GetObjectInput.Bucket req)
            (pointers.input.GetObjectInput.Key req) (Some double.object, None))
    (fun req =>
       note "GetObjectRequest" (pointers.input.GetObjectInput.Bucket req)
            (pointers.input.GetObjectInput.Key req)
            (Some "request", Some double.object))
    (fun req =>
       note "HeadObject" (pointers.input.HeadObjectInput.Bucket req)
            (pointers.input.HeadObjectInput.Key req) (Some "metadata", None))
    (fun req =>
       note "PutObject" (pointers.input.PutObjectInput.Bucket req)
            (pointers.input.PutObjectInput.Key req) (Some "stored", None))
    (fun req =>
       note "DeleteObject" (pointers.input.DeleteObjectInput.Bucket req)
            (pointers.input.DeleteObjectInput.Key req) (Some "deleted", None))
    (fun req =>
       note "DeleteObjects" (pointers.input.DeleteObjectsInput.Bucket req) None
            (Some "batch", None))
    (fun req =>
       note "ListObjects" (pointers.input.ListObjectsInput.Bucket req)
            (pointers.input.ListObjectsInput.Prefix req) (Some "page", None))
    (fun _ req pageFunc =>
       bind (pageFunc (Some "page 1") true)
            (fun _ => note "ListObjectsV2" (pointers.input.ListObjectsV2Input.Bucket req)
                           (pointers.input.ListObjectsV2Input.Prefix req) None))
    (fun _ req pageFunc =>
       bind (pageFunc (Some "page 1") true)
            (fun _ => note "ListObjectVersions"
                           (pointers.input.ListObjectVersionsInput.Bucket req)
                           (pointers.input.ListObjectVersionsInput.Prefix req) None))
    (fun req =>
       note "CopyObject" (pointers.input.CopyObjectInput.Bucket req)
            (pointers.input.CopyObjectInput.CopySource req) (Some "copied", None)).

(** A page callback that asks for the next page. *)
Definition every_page (page : option string) (last : bool)
  : pointers.Code Types bool :=
  note "page" None None true.

(** The handle [New] makes for the bucket "photos" in an empty store,
    and the state of a first call. *)
Definition photos : pointers.bucket.Bucket Types :=
  {| pointers.bucket.S3 := client; pointers.bucket.Name := Some 0 |}.

Definition start : pointers.bucket.State Types :=
  {| pointers.bucket.this := photos;
     pointers.bucket.mem :=
       @pointers.Build_Mem Types [pointers.StringCell "photos"] [] |}.

(** An option a caller can write: it writes through the bucket pointer
    of the request, [*req.Bucket = "evil"]. *)
Definition rename : pointers.option.PutObjectInput Types :=
  fun req =>
    bind (pointers.store_string (pointers.input.PutObjectInput.Bucket req) "evil")
         (fun _ => ret req).

End shared.

(** ** Vocabulary of the further properties *)

Section Further.

Variable T : Externals.

(** A field holds a value: its pointer is not nil. *)
Definition is_set (v : field_value T) : bool :=
  match v with
  | StringField _ (Some _) => true
  | Int64Field _ (Some _) => true
  | BodyField _ (Some _) => true
  | _ => false
  end.

(** The access-control and encryption fields of a put request agree
    with one another: the ACL is nil or one of the two canned ACLs, the
    mode is nil or one of the two modes, a KMS mode comes with a key id,
    and a key id comes with a mode. *)
Definition acl_and_sse_consistent (req : s3.PutObjectInput.t T) : Prop :=
  (s3.PutObjectInput.ACL req = None \/
   s3.PutObjectInput.ACL req = Some "private" \/
   s3.PutObjectInput.ACL req = Some "public-read") /\
  (s3.PutObjectInput.ServerSideEncryption req = None \/
   s3.PutObjectInput.ServerSideEncryption req = Some "aws:kms" \/
   s3.PutObjectInput.ServerSideEncryption req = Some "AES256") /\
  (s3.PutObjectInput.ServerSideEncryption req = Some "aws:kms" ->
   s3.PutObjectInput.SSEKMSKeyId req <> None) /\
  (s3.PutObjectInput.SSEKMSKeyId req <> None ->
   s3.PutObjectInput.ServerSideEncryption req <> None).

End Further.

(** The bytes an escaped query component is made of: letters, digits,
    the four unreserved marks, and the percent and plus signs that
    escaping brings in. *)
Definition url_safe (c : ascii) : bool :=
  url.between "a" "z" c || url.between "A" "Z" c || url.between "0" "9" c ||
  url.is_one_of "-_.~%+" c.

(** The bytes escaping leaves as they are: letters, digits and the four
    unreserved marks. *)
Definition unreserved (c : ascii) : bool :=
  url.between "a" "z" c || url.between "A" "Z" c || url.between "0" "9" c ||
  url.is_one_of "-_.~" c.

(** * Properties *)

(** ** Options run left to right *)

Section Running.

Variable T : Externals.

Lemma applied_nil Req (req : Req) (w : World T) :
  applied (T:=T) [] req w = (req, w).
Proof. reflexivity. Qed.

Lemma applied_cons Req (f : Req -> Effect T Req) opts req w :
  applied (f :: opts) req w = applied opts (fst (f req w)) (snd (f req w)).
Proof. unfold applied. simpl. destruct (f req w). reflexivity. Qed.

Lemma applied_snoc Req (f : Req -> Effect T Req) opts req w :
  applied (opts ++ [f]) req w =
  f (fst (applied opts req w)) (snd (applied opts req w)).
Proof. unfold applied. rewrite fold_left_app. reflexivity. Qed.

(** The loop over the options returns the request [applied] computes,
    leaves the world [applied] computes, and does not touch the
    receiver. *)
Lemma range_opts_run Req (opts : list (Req -> Effect T Req)) :
  forall (req : Req) (s : bucket.State T),
    bucket.range_opts opts req s =
    Return (fst (applied opts req (bucket.world s)))
           {| bucket.this := bucket.this s;
              bucket.world := snd (applied opts req (bucket.world s)) |}.
Proof.
  induction opts as [|f opts IH]; intros req s.
  - destruct s; reflexivity.
  - cbn [bucket.range_opts]. unfold bind, bucket.call.
    destruct (f req (bucket.world s)) as [req' w'] eqn:E.
    rewrite IH, applied_cons, E. reflexivity.
Qed.

(** A field every option keeps is kept by the whole list. *)
Lemma applied_keeps Req A (proj : Req -> A) (opts : list (Req -> Effect T Req)) :
  Forall (keeps proj) opts ->
  forall req w, proj (fst (applied opts req w)) = proj req.
Proof.
  induction 1 as [|f opts Hf _ IH]; intros req w.
  - reflexivity.
  - rewrite applied_cons, IH. apply Hf.
Qed.

End Running.

(** ** What each method does, in one equation

    A method that takes options hands the client the request the
    options leave, in the world they leave, and returns what the client
    returns. *)

Ltac run_method :=
  intros;
  repeat match goal with
         | |- context [bucket.range_opts _ _ _] => rewrite range_opts_run
         | _ => progress cbn [bind ret bucket.field bucket.this bucket.world]
         | _ => progress unfold bind at 1
         end;
  try reflexivity.

Section Equations.

Variable T : Externals.

Lemma GetObject_run key (opts : list (option.GetObjectInput T)) s :
  bucket.GetObject key opts s =
  bucket.call
    (s3iface.GetObject (bucket.S3 (bucket.this s))
       (fst (applied opts (base_GetObject (bucket.this s) key) (bucket.world s))))
    (after_options s (applied opts (base_GetObject (bucket.this s) key) (bucket.world s))).
Proof. unfold bucket.GetObject. run_method. Qed.

Lemma GetObjectRequest_run key (opts : list (option.GetObjectInput T)) s :
  bucket.GetObjectRequest key opts s =
  bucket.call
    (s3iface.GetObjectRequest (bucket.S3 (bucket.this s))
       (fst (applied opts (base_GetObject (bucket.this s) key) (bucket.world s))))
    (after_options s (applied opts (base_GetObject (bucket.this s) key) (bucket.world s))).
Proof. unfold bucket.GetObjectRequest. run_method. Qed.

Lemma HeadObject_run key (opts : list (option.HeadObjectInput T)) s :
  bucket.HeadObject key opts s =
  bucket.call
    (s3iface.HeadObject (bucket.S3 (bucket.this s))
       (fst (applied opts (base_HeadObject (bucket.this s) key) (bucket.world s))))
    (after_options s (applied opts (base_HeadObject (bucket.this s) key) (bucket.world s))).
Proof. unfold bucket.HeadObject. run_method. Qed.

Lemma PutObject_run key rs (opts : list (option.PutObjectInput T)) s :
  bucket.PutObject key rs opts s =
  bucket.call
    (s3iface.PutObject (bucket.S3 (bucket.this s))
       (fst (applied opts (base_PutObject (bucket.this s) key rs) (bucket.world s))))
    (after_options s (applied opts (base_PutObject (bucket.this s) key rs) (bucket.world s))).
Proof. unfold bucket.PutObject. run_method. Qed.

Lemma DeleteObject_run key (s : bucket.State T) :
  bucket.DeleteObject key s =
  bucket.call
    (s3iface.DeleteObject (bucket.S3 (bucket.this s))
       (base_DeleteObject (bucket.this s) key)) s.
Proof. unfold bucket.DeleteObject. run_method. Qed.

Lemma DeleteObjects_run identifiers (s : bucket.State T) :
  bucket.DeleteObjects identifiers s =
  bucket.call
    (s3iface.DeleteObjects (bucket.S3 (bucket.this s))
       (base_DeleteObjects (bucket.this s) identifiers)) s.
Proof. unfold bucket.DeleteObjects. run_method. Qed.

Lemma ListObjects_run prefix (opts : list (option.ListObjectsInput T)) s :
  bucket.ListObjects prefix opts s =
  bucket.call
    (s3iface.ListObjects (bucket.S3 (bucket.this s))
       (fst (applied opts (base_ListObjects (bucket.this s) prefix) (bucket.world s))))
    (after_options s (applied opts (base_ListObjects (bucket.this s) prefix) (bucket.world s))).
Proof. unfold bucket.ListObjects. run_method. Qed.

Lemma ListObjectsV2PagesWithContext_run ctx prefix pageFunc
    (opts : list (option.ListObjectsV2Input T)) s :
  bucket.ListObjectsV2PagesWithContext ctx prefix pageFunc opts s =
  bucket.call
    (s3iface.ListObjectsV2PagesWithContext (bucket.S3 (bucket.this s)) ctx
       (fst (applied opts (base_ListObjectsV2 (bucket.this s) prefix) (bucket.world s)))
       pageFunc)
    (after_options s (applied opts (base_ListObjectsV2 (bucket.this s) prefix) (bucket.world s))).
Proof. unfold bucket.ListObjectsV2PagesWithContext. run_method. Qed.

Lemma ListObjectVersionsPagesWithContext_run ctx prefix pageFunc
    (opts : list (option.ListObjectVersionsInput T)) s :
  bucket.ListObjectVersionsPagesWithContext ctx prefix pageFunc opts s =
  bucket.call
    (s3iface.ListObjectVersionsPagesWithContext (bucket.S3 (bucket.this s)) ctx
       (fst (applied opts (base_ListObjectVersions (bucket.this s) prefix) (bucket.world s)))
       pageFunc)
    (after_options s (applied opts (base_ListObjectVersions (bucket.this s) prefix) (bucket.world s))).
Proof. unfold bucket.ListObjectVersionsPagesWithContext. run_method. Qed.

Lemma CopyObject_run dest src (opts : list (option.CopyObjectInput T)) s :
  bucket.CopyObject dest src opts s =
  bucket.call
    (s3iface.CopyObject (bucket.S3 (bucket.this s))
       (fst (applied opts (base_CopyObject (bucket.this s) dest src) (bucket.world s))))
    (after_options s (applied opts (base_CopyObject (bucket.this s) dest src) (bucket.world s))).
Proof. unfold bucket.CopyObject. run_method. Qed.

(** [GetObjectReader] in terms of the answer of the client. *)
Lemma GetObjectReader_run key (opts : list (option.GetObjectInput T)) s :
  bucket.GetObjectReader key opts s =
  match bucket.GetObject key opts s with
  | Return (_, Some e) s' => Return (None, Some e) s'
  | Return (Some out, None) s' => Return (s3.GetObjectOutput.Body out, None) s'
  | Return (None, None) s' =>
    Panic "invalid memory address or nil pointer dereference" s'
  | Panic reason s' => Panic reason s'
  end.
Proof.
  unfold bucket.GetObjectReader, bind.
  destruct (bucket.GetObject key opts s) as [[[out|] [e|]] s'|]; reflexivity.
Qed.

End Equations.

(** ** Query escaping can be undone *)

(** Decoding what one byte was encoded to gives the byte back, whatever
    follows. *)
Lemma unescape_escape_byte (c : ascii) (rest : string) :
  url.unescape (url.escape_byte c ++ rest) =
  match url.unescape rest with
  | inl t => inl (String c t)
  | inr e => inr e
  end.
Proof.
  destruct c as [[] [] [] [] [] [] [] []]; reflexivity.
Qed.

Lemma unescape_escape (s : string) : url.unescape (url.escape s) = inl s.
Proof.
  induction s as [|c s IH].
  - reflexivity.
  - cbn [url.escape]. rewrite unescape_escape_byte, IH. reflexivity.
Qed.

Lemma QueryUnescape_QueryEscape (s : string) :
  url.QueryUnescape (url.QueryEscape s) = (s, None).
Proof.
  unfold url.QueryUnescape, url.QueryEscape. rewrite unescape_escape. reflexivity.
Qed.

(** Cutting a prefix off gives the rest. *)
Lemma substring_skip (p s : string) :
  String.substring (String.length p) (String.length s) (p ++ s) = s.
Proof.
  induction p as [|c p IH]; cbn.
  - induction s as [|c s IH]; cbn; [reflexivity | rewrite IH; reflexivity].
  - exact IH.
Qed.

(** ** Runs on the test double *)

(** The option runs first, then the client; the journal keeps the
    order. *)
Example GetObject_runs_option_then_client :
  bucket.GetObject "cat.png" [double.first_kilobyte] double.start =
  Return (Some double.object, None)
         {| bucket.this := double.photos;
            bucket.world := ["option Range"; "GetObject photos/cat.png"] |}.
Proof. reflexivity. Qed.

Example ListObjectsV2PagesWithContext_passes_callback :
  bucket.ListObjectsV2PagesWithContext double.background "2024/" double.every_page
    [double.after_march] double.start =
  Return None
         {| bucket.this := double.photos;
            bucket.world := ["option StartAfter"; "page /page 1";
                             "ListObjectsV2 photos/2024/"] |}.
Proof. reflexivity. Qed.

Example CopyObject_escapes_source :
  bucket.world (final_state (bucket.CopyObject "new.txt" "a b#c?d" [] double.start)) =
  ["CopyObject photos/photos/a+b%23c%3Fd"].
Proof. reflexivity. Qed.

Example QueryEscape_reserved :
  url.QueryEscape "a b#c?d/e~-_.+%" = "a+b%23c%3Fd%2Fe~-_.%2B%25".
Proof. reflexivity. Qed.

Example QueryUnescape_malformed :
  url.QueryUnescape "100%" = ("", Some (EscapeError "%")).
Proof. reflexivity. Qed.

(** ** The provided put options *)

Section PutOptions.

Variable T : Externals.

(** A provided option changes no field but its own: the bucket, the key
    and the body come out as they went in, and so does the world. *)
Lemma provided_keeps (o : option.PutObjectInput T) :
  option.Provided o ->
  keeps (@s3.PutObjectInput.Bucket T) o /\
  keeps (@s3.PutObjectInput.Key T) o /\
  keeps (@s3.PutObjectInput.Body T) o /\
  (forall req w, snd (o req w) = w).
Proof.
  intros []; repeat split; intros req w; reflexivity.
Qed.

Lemma provided_all_keep A (proj : s3.PutObjectInput.t T -> A)
    (opts : list (option.PutObjectInput T)) :
  (forall o, option.Provided o -> keeps proj o) ->
  Forall (@option.Provided T) opts -> Forall (keeps proj) opts.
Proof.
  intros H. induction 1; constructor; auto.
Qed.

End PutOptions.

(** ** The claims *)

(** C1. [ExistsObject] makes one [HeadObject] call and reads its error.
    Whatever the client answers to that call, [HeadObject] returns it,
    and [ExistsObject] returns [(true, nil)] when the error is nil,
    [(false, nil)] when the error is a request failure whose status code
    is 404, and [(false, err)], the error as it came, for every other
    error, an error that is no request failure included. *)
Theorem ExistsObject_translates_not_found (T : Externals) key
    (opts : list (option.HeadObjectInput T)) (s : bucket.State T) out err w' :
  let prepared :=
    applied opts (base_HeadObject (bucket.this s) key) (bucket.world s) in
  s3iface.HeadObject (bucket.S3 (bucket.this s)) (fst prepared) (snd prepared) =
    ((out, err), w') ->
  let s' := {| bucket.this := bucket.this s; bucket.world := w' |} in
  bucket.HeadObject key opts s = Return (out, err) s' /\
  (err = None ->
   bucket.ExistsObject key opts s = Return (true, None) s') /\
  (forall rf,
      err = Some (AwsRequestFailure rf) -> awserr.StatusCode rf = 404%Z ->
      bucket.ExistsObject key opts s = Return (false, None) s') /\
  (forall e,
      err = Some e ->
      (forall rf, e = AwsRequestFailure rf -> awserr.StatusCode rf <> 404%Z) ->
      bucket.ExistsObject key opts s = Return (false, Some e) s').
Proof.
  intros prepared Hclient s'.
  assert (Hhead : bucket.HeadObject key opts s = Return (out, err) s').
  { rewrite HeadObject_run. unfold bucket.call, after_options.
    cbn [bucket.this bucket.world]. fold prepared. rewrite Hclient. reflexivity. }
  split; [exact Hhead|].
  unfold bucket.ExistsObject, bind. rewrite Hhead.
  split; [|split].
  - intros ->. reflexivity.
  - intros rf -> Hcode. cbn. rewrite Hcode. reflexivity.
  - intros e -> Hother. cbn.
    destruct e as [text|fragment|code message|rf]; try reflexivity.
    cbn. destruct (Z.eqb_spec (awserr.StatusCode rf) http.StatusNotFound) as [E|E].
    + exfalso. exact (Hother rf eq_refl E).
    + reflexivity.
Qed.

(** The cases on the test double: a key that is there, a key that is
    missing (404), a key that is refused (403) and a broken connection. *)
Lemma ExistsObject_translates_not_found_witness :
  bucket.ExistsObject "cat.png" [] double.start =
    Return (true, None)
           {| bucket.this := double.photos;
              bucket.world := ["HeadObject photos/cat.png"] |} /\
  bucket.ExistsObject "missing" [] double.start =
    Return (false, None)
           {| bucket.this := double.photos;
              bucket.world := ["HeadObject photos/missing"] |} /\
  bucket.ExistsObject "secret" [] double.start =
    Return (false, double.forbidden)
           {| bucket.this := double.photos;
              bucket.world := ["HeadObject photos/secret"] |} /\
  bucket.ExistsObject "broken" [] double.start =
    Return (false, double.reset)
           {| bucket.this := double.photos;
              bucket.world := ["HeadObject photos/broken"] |}.
Proof.
  split; [|split; [|split]].
  - refine (proj1 (proj2 (ExistsObject_translates_not_found (T:=double.Types)
              "cat.png" [] double.start (out:=Some "metadata") (err:=None)
              (w':=["HeadObject photos/cat.png"]) _)) _); reflexivity.
  - refine (proj1 (proj2 (proj2 (ExistsObject_translates_not_found (T:=double.Types)
              "missing" [] double.start (out:=None) (err:=double.not_found)
              (w':=["HeadObject photos/missing"]) _))) _ _ _); reflexivity.
  - refine (proj2 (proj2 (proj2 (ExistsObject_translates_not_found (T:=double.Types)
              "secret" [] double.start (out:=None) (err:=double.forbidden)
              (w':=["HeadObject photos/secret"]) _))) _ _ _);
      [reflexivity | reflexivity | intros rf H; injection H as <-; discriminate].
  - refine (proj2 (proj2 (proj2 (ExistsObject_translates_not_found (T:=double.Types)
              "broken" [] double.start (out:=None) (err:=double.reset)
              (w':=["HeadObject photos/broken"]) _))) _ _ _);
      [reflexivity | reflexivity | intros rf H; discriminate H].
Defined.

(** C2. [PutObject] builds a request whose bucket is the name of the
    handle, whose key is the given key and whose body is the given
    reader, applies the options to it from left to right, and hands the
    result to the client: the first option gets the request as built,
    every later option the request its predecessor left.  Options that
    leave the three fields alone, as every provided option does, let
    the client see them as built. *)
Theorem PutObject_forwards_request (T : Externals) key rs
    (opts : list (option.PutObjectInput T)) (s : bucket.State T) :
  let base :=
    {| s3.PutObjectInput.ACL := None;
       s3.PutObjectInput.Body := rs;
       s3.PutObjectInput.Bucket := bucket.Name (bucket.this s);
       s3.PutObjectInput.ContentLength := None;
       s3.PutObjectInput.ContentType := None;
       s3.PutObjectInput.Key := Some key;
       s3.PutObjectInput.SSEKMSKeyId := None;
       s3.PutObjectInput.ServerSideEncryption := None |} in
  let prepared := applied opts base (bucket.world s) in
  bucket.PutObject key rs opts s =
    bucket.call (s3iface.PutObject (bucket.S3 (bucket.this s)) (fst prepared))
                (after_options s prepared) /\
  prepared = fold_left (fun rw f => f (fst rw) (snd rw)) opts (base, bucket.world s) /\
  (forall f, applied (opts ++ [f]) base (bucket.world s) =
             f (fst prepared) (snd prepared)) /\
  (forall o, option.Provided o ->
             keeps (@s3.PutObjectInput.Bucket T) o /\
             keeps (@s3.PutObjectInput.Key T) o /\
             keeps (@s3.PutObjectInput.Body T) o) /\
  (Forall (keeps (@s3.PutObjectInput.Bucket T)) opts ->
   Forall (keeps (@s3.PutObjectInput.Key T)) opts ->
   Forall (keeps (@s3.PutObjectInput.Body T)) opts ->
   s3.PutObjectInput.Bucket (fst prepared) = bucket.Name (bucket.this s) /\
   s3.PutObjectInput.Key (fst prepared) = Some key /\
   s3.PutObjectInput.Body (fst prepared) = rs).
Proof.
  intros base prepared. split; [|split; [|split; [|split]]].
  - apply PutObject_run.
  - reflexivity.
  - intros f. apply applied_snoc.
  - intros o Ho. destruct (provided_keeps Ho) as (Hb & Hk & Hy & _). auto.
  - intros Hb Hk Hy. unfold prepared.
    rewrite (applied_keeps Hb), (applied_keeps Hk), (applied_keeps Hy).
    auto.
Qed.

(** A png stored with a content type and a public ACL: the client is
    handed bucket, key and body as given, and the two options' fields. *)
Lemma PutObject_forwards_request_witness :
  let opts := [option.ContentType (T:=double.Types) "image/png"; option.ACLPublicRead (T:=double.Types)] in
  let sent :=
    fst (applied opts (base_PutObject double.photos "cat.png" double.bytes) []) in
  s3.PutObjectInput.Bucket sent = Some "photos" /\
  s3.PutObjectInput.Key sent = Some "cat.png" /\
  s3.PutObjectInput.Body sent = double.bytes.
Proof.
  intros opts sent.
  pose proof (PutObject_forwards_request (T:=double.Types) "cat.png" double.bytes opts double.start)
    as (_ & _ & _ & Hprovided & Hkept).
  assert (Hall : Forall (@option.Provided double.Types) opts)
    by (repeat constructor).
  apply Hkept.
  - apply (provided_all_keep (fun o Ho => proj1 (Hprovided o Ho)) Hall).
  - apply (provided_all_keep (fun o Ho => proj1 (proj2 (Hprovided o Ho))) Hall).
  - apply (provided_all_keep (fun o Ho => proj2 (proj2 (Hprovided o Ho))) Hall).
Defined.

(** C3. [CopyObject] builds a request whose copy source is the name of
    the bucket, a slash, and the query-escaped source key, and hands the
    client what the options make of it.  Unescaping the escaped key
    gives the key back, for every key; so does unescaping what follows
    the name and the slash in the copy source. *)
Theorem CopyObject_copy_source (T : Externals) dest src
    (opts : list (option.CopyObjectInput T)) (s : bucket.State T) :
  let name := aws.StringValue (bucket.Name (bucket.this s)) in
  let base :=
    {| s3.CopyObjectInput.ACL := None;
       s3.CopyObjectInput.Bucket := bucket.Name (bucket.this s);
       s3.CopyObjectInput.ContentType := None;
       s3.CopyObjectInput.CopySource := Some (name ++ "/" ++ url.QueryEscape src);
       s3.CopyObjectInput.Key := Some dest;
       s3.CopyObjectInput.MetadataDirective := None;
       s3.CopyObjectInput.SSEKMSKeyId := None;
       s3.CopyObjectInput.ServerSideEncryption := None |} in
  let prepared := applied opts base (bucket.world s) in
  bucket.CopyObject dest src opts s =
    bucket.call (s3iface.CopyObject (bucket.S3 (bucket.this s)) (fst prepared))
                (after_options s prepared) /\
  url.QueryUnescape (url.QueryEscape src) = (src, None) /\
  url.QueryUnescape
    (String.substring (String.length (name ++ "/"))
                      (String.length (url.QueryEscape src))
                      (name ++ "/" ++ url.QueryEscape src)) = (src, None) /\
  (Forall (keeps s3.CopyObjectInput.CopySource) opts ->
   s3.CopyObjectInput.CopySource (fst prepared) =
   Some (name ++ "/" ++ url.QueryEscape src)).
Proof.
  intros name base prepared. split; [|split; [|split]].
  - apply CopyObject_run.
  - apply QueryUnescape_QueryEscape.
  - replace (name ++ "/" ++ url.QueryEscape src)
      with ((name ++ "/") ++ url.QueryEscape src).
    + rewrite substring_skip. apply QueryUnescape_QueryEscape.
    + clear. induction name as [|c n IH]; cbn; [reflexivity | rewrite IH; reflexivity].
  - intros Hkeep. unfold prepared. rewrite (applied_keeps Hkeep). reflexivity.
Qed.

(** A source key with a space, a hash and a question mark. *)
Lemma CopyObject_copy_source_witness :
  s3.CopyObjectInput.CopySource
    (fst (applied (T:=double.Types) [double.replace_metadata]
            (base_CopyObject double.photos "new.txt" "my file#1?.txt") [])) =
  Some "photos/my+file%231%3F.txt".
Proof.
  refine (proj2 (proj2 (proj2
    (CopyObject_copy_source (T:=double.Types) "new.txt" "my file#1?.txt" [double.replace_metadata]
                            double.start))) _).
  constructor; [intros req w; reflexivity | constructor].
Defined.

(** C4. Each provided put option assigns its fields whatever the request
    holds, so of two options applied one after the other the later one
    decides every field it assigns: what the field holds afterwards is
    what the later option puts there on any request, whatever the
    earlier option was.  In particular two content types leave the
    second.  Option by option: after any earlier option, [SSEKMSKeyID k]
    leaves the key id [k] and the mode "aws:kms", [SSES3] the mode
    "AES256", [ACLPrivate] the ACL "private", [ACLPublicRead] the ACL
    "public-read", [ContentType ct] the content type [ct] and
    [ContentLength n] the content length [n]; and each of them assigns
    these fields in the sense of the first part. *)
Theorem put_options_last_write_wins (T : Externals) :
  (forall (o1 o2 : option.PutObjectInput T) (f : put_field),
     option.Provided o2 -> assigns o2 f ->
     forall req w req0 w0,
       read f (fst (applied [o1; o2] req w)) = read f (fst (o2 req0 w0))) /\
  (forall a b req w,
     s3.PutObjectInput.ContentType
       (fst (applied [option.ContentType (T:=T) a; option.ContentType (T:=T) b] req w)) =
     Some b) /\
  (forall (o1 : option.PutObjectInput T) req w,
     (forall k,
        s3.PutObjectInput.SSEKMSKeyId
          (fst (applied [o1; option.SSEKMSKeyID k] req w)) = Some k /\
        s3.PutObjectInput.ServerSideEncryption
          (fst (applied [o1; option.SSEKMSKeyID k] req w)) = Some "aws:kms") /\
     s3.PutObjectInput.ServerSideEncryption
       (fst (applied [o1; option.SSES3 (T:=T)] req w)) = Some "AES256" /\
     s3.PutObjectInput.ACL
       (fst (applied [o1; option.ACLPrivate (T:=T)] req w)) = Some "private" /\
     s3.PutObjectInput.ACL
       (fst (applied [o1; option.ACLPublicRead (T:=T)] req w)) = Some "public-read" /\
     (forall ct,
        s3.PutObjectInput.ContentType
          (fst (applied [o1; option.ContentType ct] req w)) = Some ct) /\
     (forall n,
        s3.PutObjectInput.ContentLength
          (fst (applied [o1; option.ContentLength n] req w)) = Some n)) /\
  (forall w : World T,
     (forall k, assigns (option.SSEKMSKeyID (T:=T) k) F_SSEKMSKeyId /\
                assigns (option.SSEKMSKeyID (T:=T) k) F_ServerSideEncryption) /\
     assigns (option.SSES3 (T:=T)) F_ServerSideEncryption /\
     assigns (option.ACLPrivate (T:=T)) F_ACL /\
     assigns (option.ACLPublicRead (T:=T)) F_ACL /\
     (forall ct, assigns (option.ContentType (T:=T) ct) F_ContentType) /\
     (forall n, assigns (option.ContentLength (T:=T) n) F_ContentLength)).
Proof.
  split; [|split; [|split]].
  - intros o1 o2 f Hp Ha req w req0 w0.
    rewrite applied_cons, applied_cons, applied_nil. cbn [fst snd].
    destruct (o1 req w) as [r1 w1]. cbn [fst snd].
    destruct Hp; destruct f; try reflexivity;
      exfalso; destruct Ha as (r & w' & H); apply H; reflexivity.
  - intros a b req w. reflexivity.
  - intros o1 req w. rewrite !applied_cons, !applied_nil.
    destruct (o1 req w) as [r1 w1].
    repeat (intros; match goal with |- _ /\ _ => split end); intros; reflexivity.
  - intros w.
    pose (zero := @s3.PutObjectInput.Build_t T None None None None None None None None).
    repeat (intros; match goal with |- _ /\ _ => split end); intros;
      exists zero, w; discriminate.
Qed.

(** Private, then public-read: the ACL is public-read. *)
Lemma put_options_last_write_wins_witness :
  read F_ACL
       (fst (applied (T:=double.Types) [option.ACLPrivate (T:=double.Types); option.ACLPublicRead (T:=double.Types)]
               (base_PutObject double.photos "cat.png" double.bytes) [])) =
  StringField double.Types (Some "public-read").
Proof.
  refine (proj1 (put_options_last_write_wins double.Types)
                (option.ACLPrivate (T:=double.Types))
                (option.ACLPublicRead (T:=double.Types)) F_ACL
                (option.provided_ACLPublicRead _) _ _ _
                (base_PutObject double.photos "cat.png" double.bytes) []).
  exists (base_PutObject double.photos "cat.png" double.bytes), [].
  discriminate.
Defined.

(** C5, as the code has it.  Ten methods hand on what the client
    returns, output and error as they are, for every input, with no
    check of their own; [DeleteObjects] does so for a list of any
    length.  [GetObjectReader] hands on the error as it is, but not the
    output: with an error it returns a nil stream, without one it
    returns the body of the output, and it panics when the client
    returns neither an output nor an error. *)
Theorem methods_return_client_result (T : Externals) :
  (forall key (opts : list (option.GetObjectInput T)) s,
     let prepared := applied opts (base_GetObject (bucket.this s) key) (bucket.world s) in
     bucket.GetObject key opts s =
     bucket.call (s3iface.GetObject (bucket.S3 (bucket.this s)) (fst prepared))
                 (after_options s prepared)) /\
  (forall key (opts : list (option.GetObjectInput T)) s,
     let prepared := applied opts (base_GetObject (bucket.this s) key) (bucket.world s) in
     bucket.GetObjectRequest key opts s =
     bucket.call (s3iface.GetObjectRequest (bucket.S3 (bucket.this s)) (fst prepared))
                 (after_options s prepared)) /\
  (forall key (opts : list (option.HeadObjectInput T)) s,
     let prepared := applied opts (base_HeadObject (bucket.this s) key) (bucket.world s) in
     bucket.HeadObject key opts s =
     bucket.call (s3iface.HeadObject (bucket.S3 (bucket.this s)) (fst prepared))
                 (after_options s prepared)) /\
  (forall key rs (opts : list (option.PutObjectInput T)) s,
     let prepared := applied opts (base_PutObject (bucket.this s) key rs) (bucket.world s) in
     bucket.PutObject key rs opts s =
     bucket.call (s3iface.PutObject (bucket.S3 (bucket.this s)) (fst prepared))
                 (after_options s prepared)) /\
  (forall key (s : bucket.State T),
     bucket.DeleteObject key s =
     bucket.call (s3iface.DeleteObject (bucket.S3 (bucket.this s))
                    (base_DeleteObject (bucket.this s) key)) s) /\
  (forall identifiers (s : bucket.State T),
     bucket.DeleteObjects identifiers s =
     bucket.call (s3iface.DeleteObjects (bucket.S3 (bucket.this s))
                    (base_DeleteObjects (bucket.this s) identifiers)) s) /\
  (forall prefix (opts : list (option.ListObjectsInput T)) s,
     let prepared := applied opts (base_ListObjects (bucket.this s) prefix) (bucket.world s) in
     bucket.ListObjects prefix opts s =
     bucket.call (s3iface.ListObjects (bucket.S3 (bucket.this s)) (fst prepared))
                 (after_options s prepared)) /\
  (forall ctx prefix pageFunc (opts : list (option.ListObjectsV2Input T)) s,
     let prepared := applied opts (base_ListObjectsV2 (bucket.this s) prefix) (bucket.world s) in
     bucket.ListObjectsV2PagesWithContext ctx prefix pageFunc opts s =
     bucket.call (s3iface.ListObjectsV2PagesWithContext (bucket.S3 (bucket.this s))
                    ctx (fst prepared) pageFunc)
                 (after_options s prepared)) /\
  (forall ctx prefix pageFunc (opts : list (option.ListObjectVersionsInput T)) s,
     let prepared :=
       applied opts (base_ListObjectVersions (bucket.this s) prefix) (bucket.world s) in
     bucket.ListObjectVersionsPagesWithContext ctx prefix pageFunc opts s =
     bucket.call (s3iface.ListObjectVersionsPagesWithContext (bucket.S3 (bucket.this s))
                    ctx (fst prepared) pageFunc)
                 (after_options s prepared)) /\
  (forall dest src (opts : list (option.CopyObjectInput T)) s,
     let prepared :=
       applied opts (base_CopyObject (bucket.this s) dest src) (bucket.world s) in
     bucket.CopyObject dest src opts s =
     bucket.call (s3iface.CopyObject (bucket.S3 (bucket.this s)) (fst prepared))
                 (after_options s prepared)) /\
  (forall key (opts : list (option.GetObjectInput T)) s,
     let prepared := applied opts (base_GetObject (bucket.this s) key) (bucket.world s) in
     bucket.GetObjectReader key opts s =
     match s3iface.GetObject (bucket.S3 (bucket.this s)) (fst prepared) (snd prepared) with
     | ((_, Some e), w) =>
       Return (None, Some e) {| bucket.this := bucket.this s; bucket.world := w |}
     | ((Some out, None), w) =>
       Return (s3.GetObjectOutput.Body out, None)
              {| bucket.this := bucket.this s; bucket.world := w |}
     | ((None, None), w) =>
       Panic "invalid memory address or nil pointer dereference"
             {| bucket.this := bucket.this s; bucket.world := w |}
     end).
Proof.
  repeat match goal with |- _ /\ _ => split end; intros.
  - apply GetObject_run.
  - apply GetObjectRequest_run.
  - apply HeadObject_run.
  - apply PutObject_run.
  - apply DeleteObject_run.
  - apply DeleteObjects_run.
  - apply ListObjects_run.
  - apply ListObjectsV2PagesWithContext_run.
  - apply ListObjectVersionsPagesWithContext_run.
  - apply CopyObject_run.
  - rewrite GetObjectReader_run, GetObject_run. unfold bucket.call, after_options.
    cbn [bucket.world bucket.this]. subst prepared.
    destruct (s3iface.GetObject _ _ _) as [[[out|] [e|]] w]; reflexivity.
Qed.

(** C5 as stated fails on [GetObjectReader].  The client answers the
    key "broken" with an output and an error; the method returns the
    error and a nil stream, not the output and not its body. *)
Lemma GetObjectReader_drops_client_output :
  s3iface.GetObject double.client (base_GetObject double.photos "broken") [] =
    ((Some double.object, double.reset), ["GetObject photos/broken"]) /\
  bucket.GetObjectReader "broken" [] double.start =
    Return (None, double.reset)
           {| bucket.this := double.photos;
              bucket.world := ["GetObject photos/broken"] |} /\
  bucket.GetObjectReader "broken" [] double.start <>
    Return (stream_of (Some double.object), double.reset)
           {| bucket.this := double.photos;
              bucket.world := ["GetObject photos/broken"] |}.
Proof.
  split; [reflexivity | split; [reflexivity | discriminate]].
Qed.

(** A client that returns neither an output nor an error makes
    [GetObjectReader] panic. *)
Example GetObjectReader_panics_on_nil_output :
  bucket.GetObjectReader "cat.png" []
    {| bucket.this := bucket.New double.silent "photos"; bucket.world := [] |} =
  Panic "invalid memory address or nil pointer dereference"
        {| bucket.this := bucket.New double.silent "photos"; bucket.world := [] |}.
Proof. reflexivity. Qed.

(** Options that only touch additional fields keep the bucket and the
    key of the request, one by one and as a list. *)
Lemma additional_fields_only_all (T : Externals) Req
    (bucket_of key_of : Req -> option string) (opts : list (Req -> Effect T Req)) :
  Forall (additional_fields_only bucket_of key_of) opts ->
  Forall (keeps bucket_of) opts /\ Forall (keeps key_of) opts.
Proof.
  induction 1 as [|f opts [Hb Hk] _ [IHb IHk]]; split; constructor; assumption.
Qed.

(** C6. Each of the eight methods that take options builds its request
    with the bucket of the handle and the given key or prefix before
    the first option runs: the request the options start from carries
    both, and does not depend on the options.  Every provided option
    leaves both fields as they are.  So when the options of a call leave
    the two fields alone, the request the client is handed carries the
    bucket of the handle and the key or prefix of the caller. *)
Theorem bucket_and_key_survive_options (T : Externals) :
  (forall o : option.PutObjectInput T,
     option.Provided o ->
     keeps (@s3.PutObjectInput.Bucket T) o /\ keeps (@s3.PutObjectInput.Key T) o) /\
  (forall key (opts : list (option.GetObjectInput T)) s,
     let base := base_GetObject (bucket.this s) key in
     let prepared := applied opts base (bucket.world s) in
     (s3.GetObjectInput.Bucket base = bucket.Name (bucket.this s) /\
      s3.GetObjectInput.Key base = Some key) /\
     bucket.GetObject key opts s =
       bucket.call (s3iface.GetObject (bucket.S3 (bucket.this s)) (fst prepared))
                   (after_options s prepared) /\
     bucket.GetObjectRequest key opts s =
       bucket.call (s3iface.GetObjectRequest (bucket.S3 (bucket.this s)) (fst prepared))
                   (after_options s prepared) /\
     (Forall (additional_fields_only s3.GetObjectInput.Bucket s3.GetObjectInput.Key) opts ->
      s3.GetObjectInput.Bucket (fst prepared) = bucket.Name (bucket.this s) /\
      s3.GetObjectInput.Key (fst prepared) = Some key)) /\
  (forall key (opts : list (option.HeadObjectInput T)) s,
     let base := base_HeadObject (bucket.this s) key in
     let prepared := applied opts base (bucket.world s) in
     (s3.HeadObjectInput.Bucket base = bucket.Name (bucket.this s) /\
      s3.HeadObjectInput.Key base = Some key) /\
     bucket.HeadObject key opts s =
       bucket.call (s3iface.HeadObject (bucket.S3 (bucket.this s)) (fst prepared))
                   (after_options s prepared) /\
     (Forall (additional_fields_only s3.HeadObjectInput.Bucket s3.HeadObjectInput.Key) opts ->
      s3.HeadObjectInput.Bucket (fst prepared) = bucket.Name (bucket.this s) /\
      s3.HeadObjectInput.Key (fst prepared) = Some key)) /\
  (forall key rs (opts : list (option.PutObjectInput T)) s,
     let base := base_PutObject (bucket.this s) key rs in
     let prepared := applied opts base (bucket.world s) in
     (s3.PutObjectInput.Bucket base = bucket.Name (bucket.this s) /\
      s3.PutObjectInput.Key base = Some key) /\
     bucket.PutObject key rs opts s =
       bucket.call (s3iface.PutObject (bucket.S3 (bucket.this s)) (fst prepared))
                   (after_options s prepared) /\
     (Forall (@option.Provided T) opts ->
      s3.PutObjectInput.Bucket (fst prepared) = bucket.Name (bucket.this s) /\
      s3.PutObjectInput.Key (fst prepared) = Some key)) /\
  (forall prefix (opts : list (option.ListObjectsInput T)) s,
     let base := base_ListObjects (bucket.this s) prefix in
     let prepared := applied opts base (bucket.world s) in
     (s3.ListObjectsInput.Bucket base = bucket.Name (bucket.this s) /\
      s3.ListObjectsInput.Prefix base = Some prefix) /\
     bucket.ListObjects prefix opts s =
       bucket.call (s3iface.ListObjects (bucket.S3 (bucket.this s)) (fst prepared))
                   (after_options s prepared) /\
     (Forall (additional_fields_only s3.ListObjectsInput.Bucket s3.ListObjectsInput.Prefix) opts ->
      s3.ListObjectsInput.Bucket (fst prepared) = bucket.Name (bucket.this s) /\
      s3.ListObjectsInput.Prefix (fst prepared) = Some prefix)) /\
  (forall ctx prefix pageFunc (opts : list (option.ListObjectsV2Input T)) s,
     let base := base_ListObjectsV2 (bucket.this s) prefix in
     let prepared := applied opts base (bucket.world s) in
     (s3.ListObjectsV2Input.Bucket base = bucket.Name (bucket.this s) /\
      s3.ListObjectsV2Input.Prefix base = Some prefix) /\
     bucket.ListObjectsV2PagesWithContext ctx prefix pageFunc opts s =
       bucket.call (s3iface.ListObjectsV2PagesWithContext (bucket.S3 (bucket.this s))
                      ctx (fst prepared) pageFunc)
                   (after_options s prepared) /\
     (Forall (additional_fields_only s3.ListObjectsV2Input.Bucket s3.ListObjectsV2Input.Prefix) opts ->
      s3.ListObjectsV2Input.Bucket (fst prepared) = bucket.Name (bucket.this s) /\
      s3.ListObjectsV2Input.Prefix (fst prepared) = Some prefix)) /\
  (forall ctx prefix pageFunc (opts : list (option.ListObjectVersionsInput T)) s,
     let base := base_ListObjectVersions (bucket.this s) prefix in
     let prepared := applied opts base (bucket.world s) in
     (s3.ListObjectVersionsInput.Bucket base = bucket.Name (bucket.this s) /\
      s3.ListObjectVersionsInput.Prefix base = Some prefix) /\
     bucket.ListObjectVersionsPagesWithContext ctx prefix pageFunc opts s =
       bucket.call (s3iface.ListObjectVersionsPagesWithContext
                      (bucket.S3 (bucket.this s)) ctx (fst prepared) pageFunc)
                   (after_options s prepared) /\
     (Forall (additional_fields_only s3.ListObjectVersionsInput.Bucket s3.ListObjectVersionsInput.Prefix) opts ->
      s3.ListObjectVersionsInput.Bucket (fst prepared) = bucket.Name (bucket.this s) /\
      s3.ListObjectVersionsInput.Prefix (fst prepared) = Some prefix)) /\
  (forall dest src (opts : list (option.CopyObjectInput T)) s,
     let base := base_CopyObject (bucket.this s) dest src in
     let prepared := applied opts base (bucket.world s) in
     (s3.CopyObjectInput.Bucket base = bucket.Name (bucket.this s) /\
      s3.CopyObjectInput.Key base = Some dest) /\
     bucket.CopyObject dest src opts s =
       bucket.call (s3iface.CopyObject (bucket.S3 (bucket.this s)) (fst prepared))
                   (after_options s prepared) /\
     (Forall (additional_fields_only s3.CopyObjectInput.Bucket s3.CopyObjectInput.Key) opts ->
      s3.CopyObjectInput.Bucket (fst prepared) = bucket.Name (bucket.this s) /\
      s3.CopyObjectInput.Key (fst prepared) = Some dest)).
Proof.
  assert (Hput : forall o : option.PutObjectInput T,
             option.Provided o ->
             keeps (@s3.PutObjectInput.Bucket T) o /\
             keeps (@s3.PutObjectInput.Key T) o).
  { intros o Ho. destruct (provided_keeps Ho) as (Hb & Hk & _). auto. }
  repeat (intros; match goal with |- _ /\ _ => split end); intros;
    repeat match goal with x := _ |- _ => subst x end;
    repeat match goal with
           | H : Forall (additional_fields_only _ _) _ |- _ =>
             destruct (additional_fields_only_all H) as [Hb Hk];
             first [rewrite (applied_keeps Hb) | rewrite (applied_keeps Hk)];
             clear H Hb Hk
           end;
    try reflexivity.
  - apply Hput; assumption.
  - apply Hput; assumption.
  - apply GetObject_run.
  - apply GetObjectRequest_run.
  - apply HeadObject_run.
  - apply PutObject_run.
  - match goal with H : Forall _ _ |- _ =>
      rewrite (applied_keeps (provided_all_keep (fun o Ho => proj1 (Hput o Ho)) H))
    end.
    reflexivity.
  - match goal with H : Forall _ _ |- _ =>
      rewrite (applied_keeps (provided_all_keep (fun o Ho => proj2 (Hput o Ho)) H))
    end.
    reflexivity.
  - apply ListObjects_run.
  - apply ListObjectsV2PagesWithContext_run.
  - apply ListObjectVersionsPagesWithContext_run.
  - apply CopyObject_run.
Qed.

(** On the test double: a put with two provided options, and each other
    operation with an option of the caller that assigns one additional
    field. *)
Lemma bucket_and_key_survive_options_witness :
  (keeps (@s3.PutObjectInput.Bucket double.Types) (option.ContentLength 5) /\
   keeps (@s3.PutObjectInput.Key double.Types) (option.ContentLength 5)) /\
  (let sent :=
     fst (applied [option.SSEKMSKeyID (T:=double.Types) "key-1";
                   option.SSES3 (T:=double.Types)]
            (base_PutObject double.photos "cat.png" double.bytes) []) in
   s3.PutObjectInput.Bucket sent = Some "photos" /\
   s3.PutObjectInput.Key sent = Some "cat.png") /\
  (let sent :=
     fst (applied [double.first_kilobyte]
            (base_GetObject double.photos "cat.png") []) in
   s3.GetObjectInput.Bucket sent = Some "photos" /\
   s3.GetObjectInput.Key sent = Some "cat.png") /\
  (let sent :=
     fst (applied [double.this_version]
            (base_HeadObject double.photos "cat.png") []) in
   s3.HeadObjectInput.Bucket sent = Some "photos" /\
   s3.HeadObjectInput.Key sent = Some "cat.png") /\
  (let sent :=
     fst (applied [double.ten_keys] (base_ListObjects double.photos "2024/") []) in
   s3.ListObjectsInput.Bucket sent = Some "photos" /\
   s3.ListObjectsInput.Prefix sent = Some "2024/") /\
  (let sent :=
     fst (applied [double.after_march] (base_ListObjectsV2 double.photos "2024/") []) in
   s3.ListObjectsV2Input.Bucket sent = Some "photos" /\
   s3.ListObjectsV2Input.Prefix sent = Some "2024/") /\
  (let sent :=
     fst (applied [double.by_folder]
            (base_ListObjectVersions double.photos "2024/") []) in
   s3.ListObjectVersionsInput.Bucket sent = Some "photos" /\
   s3.ListObjectVersionsInput.Prefix sent = Some "2024/") /\
  (let sent :=
     fst (applied [double.replace_metadata]
            (base_CopyObject double.photos "new.txt" "old.txt") []) in
   s3.CopyObjectInput.Bucket sent = Some "photos" /\
   s3.CopyObjectInput.Key sent = Some "new.txt").
Proof.
  destruct (bucket_and_key_survive_options double.Types)
    as (Hprovided & Hget & Hhead & Hput & Hlist & Hv2 & Hversions & Hcopy).
  assert (Hone : forall Req (bucket_of key_of : Req -> option string)
                   (f : Req -> Effect double.Types Req),
             (forall req w, bucket_of (fst (f req w)) = bucket_of req) ->
             (forall req w, key_of (fst (f req w)) = key_of req) ->
             Forall (additional_fields_only bucket_of key_of) [f]).
  { intros Req bucket_of key_of f Hb Hk. constructor; [split; assumption | constructor]. }
  split; [|split; [|split; [|split; [|split; [|split; [|split]]]]]].
  - apply Hprovided. constructor.
  - apply (Hput "cat.png" double.bytes _ double.start). repeat constructor.
  - apply (Hget "cat.png" _ double.start). apply Hone; reflexivity.
  - apply (Hhead "cat.png" _ double.start). apply Hone; reflexivity.
  - apply (Hlist "2024/" _ double.start). apply Hone; reflexivity.
  - apply (Hv2 double.background "2024/" double.every_page _ double.start). apply Hone; reflexivity.
  - apply (Hversions double.background "2024/" double.every_page _ double.start).
    apply Hone; reflexivity.
  - apply (Hcopy "new.txt" "old.txt" _ double.start). apply Hone; reflexivity.
Defined.

(** C7. [DeleteObjects] with an empty list has no exit of its own: it
    calls the client with a request whose bucket is the name of the
    handle and whose [Delete] holds the empty list, every other field
    zero, and returns what the client returns.  On the test double the
    journal shows the call. *)
Theorem DeleteObjects_empty_is_forwarded (T : Externals) :
  (forall s : bucket.State T,
     bucket.DeleteObjects [] s =
     bucket.call
       (s3iface.DeleteObjects (bucket.S3 (bucket.this s))
          {| s3.DeleteObjectsInput.Bucket := bucket.Name (bucket.this s);
             s3.DeleteObjectsInput.BypassGovernanceRetention := None;
             s3.DeleteObjectsInput.Delete :=
               Some {| s3.Delete.Objects := []; s3.Delete.Quiet := None |};
             s3.DeleteObjectsInput.ExpectedBucketOwner := None;
             s3.DeleteObjectsInput.MFA := None;
             s3.DeleteObjectsInput.RequestPayer := None |}) s) /\
  bucket.DeleteObjects [] double.start =
    Return (Some "batch", None)
           {| bucket.this := double.photos;
              bucket.world := ["DeleteObjects photos/"] |}.
Proof.
  split.
  - intros s. apply DeleteObjects_run.
  - reflexivity.
Qed.

(** C8. [DeleteObject] takes a key and nothing else.  The request it
    hands the client has the name of the handle as its bucket and the
    key as its key; every other field is zero.  It returns what the
    client returns. *)
Theorem DeleteObject_sets_bucket_and_key_only (T : Externals) key
    (s : bucket.State T) :
  bucket.DeleteObject key s =
  bucket.call
    (s3iface.DeleteObject (bucket.S3 (bucket.this s))
       {| s3.DeleteObjectInput.Bucket := bucket.Name (bucket.this s);
          s3.DeleteObjectInput.BypassGovernanceRetention := None;
          s3.DeleteObjectInput.ExpectedBucketOwner := None;
          s3.DeleteObjectInput.Key := Some key;
          s3.DeleteObjectInput.MFA := None;
          s3.DeleteObjectInput.RequestPayer := None;
          s3.DeleteObjectInput.VersionId := None |}) s.
Proof. apply DeleteObject_run. Qed.

(** C10. [SSEKMSKeyID k] assigns two fields, the key id ([k]) and the
    encryption mode ("aws:kms"); [SSES3] assigns the encryption mode
    ("AES256") and nothing else.  So after [SSEKMSKeyID k] and then
    [SSES3] the mode is "AES256" and the key id is still [k]. *)
Theorem SSES3_after_SSEKMSKeyID_keeps_key_id (T : Externals) k
    (req : s3.PutObjectInput.t T) (w : World T) :
  option.SSEKMSKeyID k req w =
    ({| s3.PutObjectInput.ACL := s3.PutObjectInput.ACL req;
        s3.PutObjectInput.Body := s3.PutObjectInput.Body req;
        s3.PutObjectInput.Bucket := s3.PutObjectInput.Bucket req;
        s3.PutObjectInput.ContentLength := s3.PutObjectInput.ContentLength req;
        s3.PutObjectInput.ContentType := s3.PutObjectInput.ContentType req;
        s3.PutObjectInput.Key := s3.PutObjectInput.Key req;
        s3.PutObjectInput.SSEKMSKeyId := Some k;
        s3.PutObjectInput.ServerSideEncryption := Some "aws:kms" |}, w) /\
  option.SSES3 req w =
    ({| s3.PutObjectInput.ACL := s3.PutObjectInput.ACL req;
        s3.PutObjectInput.Body := s3.PutObjectInput.Body req;
        s3.PutObjectInput.Bucket := s3.PutObjectInput.Bucket req;
        s3.PutObjectInput.ContentLength := s3.PutObjectInput.ContentLength req;
        s3.PutObjectInput.ContentType := s3.PutObjectInput.ContentType req;
        s3.PutObjectInput.Key := s3.PutObjectInput.Key req;
        s3.PutObjectInput.SSEKMSKeyId := s3.PutObjectInput.SSEKMSKeyId req;
        s3.PutObjectInput.ServerSideEncryption := Some "AES256" |}, w) /\
  (let after := fst (applied [option.SSEKMSKeyID k; option.SSES3 (T:=T)] req w) in
   s3.PutObjectInput.ServerSideEncryption after = Some "AES256" /\
   s3.PutObjectInput.SSEKMSKeyId after = Some k).
Proof.
  split; [reflexivity | split; [reflexivity | split; reflexivity]].
Qed.

(** * Further properties *)

(** ** Lists of options *)

Section OptionLists.

Variable T : Externals.

Lemma applied_app Req (opts1 opts2 : list (Req -> Effect T Req)) req w :
  applied (opts1 ++ opts2) req w =
  applied opts2 (fst (applied opts1 req w)) (snd (applied opts1 req w)).
Proof.
  unfold applied. rewrite fold_left_app, <- surjective_pairing. reflexivity.
Qed.

(** A property of requests that every option of a list keeps holds of
    what the list leaves. *)
Lemma applied_invariant Req (P : (Req -> Effect T Req) -> Prop) (I : Req -> Prop)
    (opts : list (Req -> Effect T Req)) :
  (forall o req w, P o -> I req -> I (fst (o req w))) ->
  Forall P opts -> forall req w, I req -> I (fst (applied opts req w)).
Proof.
  intros Hstep. induction 1 as [|o opts Ho _ IH]; intros req w Hreq.
  - exact Hreq.
  - rewrite applied_cons. apply IH. apply Hstep; assumption.
Qed.

(** A provided option leaves the world as it is. *)
Lemma provided_world (o : option.PutObjectInput T) :
  option.Provided o -> forall req w, snd (o req w) = w.
Proof. intros [] req w; reflexivity. Qed.

Lemma provided_list_world (opts : list (option.PutObjectInput T)) :
  Forall (@option.Provided T) opts ->
  forall req w, snd (applied opts req w) = w.
Proof.
  induction 1 as [|o opts Ho _ IH]; intros req w.
  - reflexivity.
  - rewrite applied_cons, IH. apply (provided_world Ho).
Qed.

Lemma provided_list_request (opts : list (option.PutObjectInput T)) :
  Forall (@option.Provided T) opts ->
  forall req w w', fst (applied opts req w) = fst (applied opts req w').
Proof.
  induction 1 as [|o opts Ho _ IH]; intros req w w'.
  - reflexivity.
  - rewrite !applied_cons, !(provided_world Ho).
    replace (fst (o req w')) with (fst (o req w)) by (destruct Ho; reflexivity).
    apply IH.
Qed.

End OptionLists.

(** Every field can be cleared; this tells an option that assigns a
    field from one that leaves it. *)
Ltac show_assigns req w :=
  first
    [ exists (s3.PutObjectInput.set_ACL None req), w; discriminate
    | exists (s3.PutObjectInput.set_ContentLength None req), w; discriminate
    | exists (s3.PutObjectInput.set_ContentType None req), w; discriminate
    | exists (s3.PutObjectInput.set_SSEKMSKeyId None req), w; discriminate
    | exists (s3.PutObjectInput.set_ServerSideEncryption None req), w; discriminate ].

Ltac refute_assigns :=
  match goal with
  | H : assigns _ _ |- _ =>
    let r := fresh "r" in
    let w := fresh "w" in
    let Hne := fresh "Hne" in
    destruct H as (r & w & Hne); exfalso; apply Hne; reflexivity
  end.

Section PutOptionAlgebra.

Variable T : Externals.

(** A provided option that does not assign a field leaves it as it is. *)
Lemma unassigned_kept (o : option.PutObjectInput T) (f : put_field) :
  option.Provided o -> ~ assigns o f -> keeps (read f) o.
Proof.
  intros Ho Hnot req w.
  destruct Ho; destruct f; try reflexivity;
    exfalso; apply Hnot; show_assigns req w.
Qed.

(** A provided option that assigns a field puts the same value there
    on every request. *)
Lemma assigned_constant (o : option.PutObjectInput T) (f : put_field) :
  option.Provided o -> assigns o f ->
  forall req w req0 w0, read f (fst (o req w)) = read f (fst (o req0 w0)).
Proof.
  intros Ho Ha req w req0 w0.
  destruct Ho; destruct f; try reflexivity; refute_assigns.
Qed.

(** X1. The provided put options have no effect but on the request:
    with provided options only, [PutObject] calls the client in the
    world of the caller, and the request the client is handed is the
    same whatever that world is. *)
Theorem PutObject_provided_options_have_no_side_effect key rs
    (opts : list (option.PutObjectInput T)) (s : bucket.State T) :
  Forall (@option.Provided T) opts ->
  bucket.PutObject key rs opts s =
    bucket.call
      (s3iface.PutObject (bucket.S3 (bucket.this s))
         (fst (applied opts (base_PutObject (bucket.this s) key rs) (bucket.world s))))
      s /\
  (forall w,
     fst (applied opts (base_PutObject (bucket.this s) key rs) w) =
     fst (applied opts (base_PutObject (bucket.this s) key rs) (bucket.world s))).
Proof.
  intros Hall. split.
  - rewrite PutObject_run. unfold after_options.
    rewrite (provided_list_world Hall). destruct s; reflexivity.
  - intros w. apply (provided_list_request Hall).
Qed.

(** X2. Of two provided options, the later one absorbs the earlier one
    when it assigns every field the earlier one assigns: the pair does
    what the later option does alone.  So a provided option applied
    twice does what it does once, and [SSEKMSKeyID] after [SSES3] does
    what [SSEKMSKeyID] does. *)
Theorem later_put_option_absorbs_earlier (o1 o2 : option.PutObjectInput T) :
  option.Provided o1 -> option.Provided o2 ->
  (forall f, assigns o1 f -> assigns o2 f) ->
  forall req w, applied [o1; o2] req w = applied [o2] req w.
Proof.
  intros H1 H2 Hsub req w.
  rewrite !applied_cons, !applied_nil.
  destruct H1; destruct H2; try reflexivity; exfalso;
    first
      [ assert (Ha : assigns (option.SSEKMSKeyID (T:=T) keyID) F_SSEKMSKeyId)
          by show_assigns req w;
        apply Hsub in Ha; refute_assigns
      | assert (Ha : assigns (option.SSEKMSKeyID (T:=T) keyID) F_ServerSideEncryption)
          by show_assigns req w;
        apply Hsub in Ha; refute_assigns
      | assert (Ha : assigns (option.SSES3 (T:=T)) F_ServerSideEncryption)
          by show_assigns req w;
        apply Hsub in Ha; refute_assigns
      | assert (Ha : assigns (option.ACLPrivate (T:=T)) F_ACL)
          by show_assigns req w;
        apply Hsub in Ha; refute_assigns
      | assert (Ha : assigns (option.ACLPublicRead (T:=T)) F_ACL)
          by show_assigns req w;
        apply Hsub in Ha; refute_assigns
      | assert (Ha : assigns (option.ContentType (T:=T) ct) F_ContentType)
          by show_assigns req w;
        apply Hsub in Ha; refute_assigns
      | assert (Ha : assigns (option.ContentLength (T:=T) length) F_ContentLength)
          by show_assigns req w;
        apply Hsub in Ha; refute_assigns ].
Qed.

End PutOptionAlgebra.

Section PutOptionOrder.

Variable T : Externals.

(** X3. Two provided options that assign no field in common can be
    given in either order: the request and the world come out the
    same. *)
Theorem put_options_on_different_fields_commute (o1 o2 : option.PutObjectInput T) :
  option.Provided o1 -> option.Provided o2 ->
  (forall f, ~ (assigns o1 f /\ assigns o2 f)) ->
  forall req w, applied [o1; o2] req w = applied [o2; o1] req w.
Proof.
  intros H1 H2 Hapart req w.
  rewrite !applied_cons, !applied_nil.
  destruct H1; destruct H2; try reflexivity; exfalso;
    first
      [ apply (Hapart F_ACL); split; show_assigns req w
      | apply (Hapart F_ContentLength); split; show_assigns req w
      | apply (Hapart F_ContentType); split; show_assigns req w
      | apply (Hapart F_ServerSideEncryption); split; show_assigns req w ].
Qed.

(** X4. In a list of options, the last provided option that assigns a
    field decides it: when the options after it are provided and do not
    assign the field, the field holds in the end what that option puts
    there on any request, whatever the options before it are. *)
Theorem last_assigning_put_option_decides (o : option.PutObjectInput T)
    (f : put_field) (before after : list (option.PutObjectInput T)) :
  option.Provided o -> assigns o f ->
  Forall (fun o' => option.Provided o' /\ ~ assigns o' f) after ->
  forall req w req0 w0,
    read f (fst (applied (before ++ o :: after) req w)) = read f (fst (o req0 w0)).
Proof.
  intros Ho Ha Hafter req w req0 w0.
  rewrite applied_app, applied_cons.
  assert (Hkeep : Forall (keeps (read f)) after).
  { induction Hafter as [|o' after [Hp Hn] _ IH]; constructor.
    - apply unassigned_kept; assumption.
    - exact IH. }
  rewrite (applied_keeps Hkeep). apply assigned_constant; assumption.
Qed.

(** A provided option clears no field. *)
Lemma provided_clears_nothing (o : option.PutObjectInput T) (f : put_field) :
  option.Provided o ->
  forall req w, is_set (read f req) = true -> is_set (read f (fst (o req w))) = true.
Proof.
  intros Ho req w. destruct Ho; destruct f; cbn; auto.
Qed.

(** X5. Provided options never clear a field: a field that holds a
    value before a list of provided options holds one after it. *)
Theorem put_options_never_clear_a_field (opts : list (option.PutObjectInput T))
    (f : put_field) :
  Forall (@option.Provided T) opts ->
  forall req w,
    is_set (read f req) = true ->
    is_set (read f (fst (applied opts req w))) = true.
Proof.
  intros Hall req w.
  apply (@applied_invariant T _ (@option.Provided T)
           (fun r => is_set (read f r) = true)); [|exact Hall].
  intros o r w' Ho. apply provided_clears_nothing. exact Ho.
Qed.

Lemma provided_keeps_consistent (o : option.PutObjectInput T) :
  option.Provided o ->
  forall req w, acl_and_sse_consistent req -> acl_and_sse_consistent (fst (o req w)).
Proof.
  intros Ho req w (Hacl & Hsse & Hkms & Hid).
  destruct Ho; unfold acl_and_sse_consistent; cbn;
    repeat split; auto; try discriminate; intros; try discriminate; auto.
Qed.

(** X6. The request [PutObject] hands the client after provided options
    has consistent access-control and encryption fields: the ACL is nil,
    "private" or "public-read"; the mode is nil, "aws:kms" or "AES256";
    with the mode "aws:kms" there is a key id; with a key id there is a
    mode. *)
Theorem PutObject_request_is_consistent key rs
    (opts : list (option.PutObjectInput T)) (b : bucket.Bucket T) w :
  Forall (@option.Provided T) opts ->
  acl_and_sse_consistent (fst (applied opts (base_PutObject b key rs) w)).
Proof.
  intros Hall.
  apply (@applied_invariant T _ (@option.Provided T)
           (@acl_and_sse_consistent T)); [|exact Hall|].
  - intros o r w' Ho. apply provided_keeps_consistent. exact Ho.
  - unfold acl_and_sse_consistent. cbn. repeat split; auto; intros; congruence.
Qed.

End PutOptionOrder.

(** ** Handles without a name *)

Section Handles.

Variable T : Externals.

(** A handle whose name is nil does not make [CopyObject] panic:
    the name counts as empty.  The request has a nil bucket and a copy
    source that starts with the slash; a handle made by [New] with the
    empty name gives the same copy source, with a bucket that is empty,
    not nil. *)
Lemma CopyObject_without_a_name (c : s3iface.S3API T) dest src (w : World T) :
  (let s := {| bucket.this := {| bucket.S3 := c; bucket.Name := None |};
               bucket.world := w |} in
   bucket.CopyObject dest src [] s =
   bucket.call
     (s3iface.CopyObject c
        {| s3.CopyObjectInput.ACL := None;
           s3.CopyObjectInput.Bucket := None;
           s3.CopyObjectInput.ContentType := None;
           s3.CopyObjectInput.CopySource := Some ("/" ++ url.QueryEscape src);
           s3.CopyObjectInput.Key := Some dest;
           s3.CopyObjectInput.MetadataDirective := None;
           s3.CopyObjectInput.SSEKMSKeyId := None;
           s3.CopyObjectInput.ServerSideEncryption := None |}) s) /\
  (let s := {| bucket.this := bucket.New c ""; bucket.world := w |} in
   bucket.CopyObject dest src [] s =
   bucket.call
     (s3iface.CopyObject c
        {| s3.CopyObjectInput.ACL := None;
           s3.CopyObjectInput.Bucket := Some "";
           s3.CopyObjectInput.ContentType := None;
           s3.CopyObjectInput.CopySource := Some ("/" ++ url.QueryEscape src);
           s3.CopyObjectInput.Key := Some dest;
           s3.CopyObjectInput.MetadataDirective := None;
           s3.CopyObjectInput.SSEKMSKeyId := None;
           s3.CopyObjectInput.ServerSideEncryption := None |}) s).
Proof.
  split; intros s; rewrite CopyObject_run; reflexivity.
Qed.

End Handles.

(** ** The escaped source key of a copy *)

Lemma length_append (a b : string) :
  String.length (a ++ b) = String.length a + String.length b.
Proof. induction a as [|c a IH]; cbn; [reflexivity | rewrite IH; reflexivity]. Qed.

Lemma list_ascii_of_append (a b : string) :
  list_ascii_of_string (a ++ b) =
  (list_ascii_of_string a ++ list_ascii_of_string b)%list.
Proof. induction a as [|c a IH]; cbn; [reflexivity | rewrite IH; reflexivity]. Qed.

Lemma append_cancel (p a b : string) : (p ++ a = p ++ b)%string -> a = b.
Proof.
  induction p as [|c p IH]; cbn; intros H.
  - exact H.
  - injection H as H. auto.
Qed.

(** One byte is escaped to itself when it is unreserved, and otherwise
    to a plus sign or to a percent sign and two digits; only the percent
    sign comes out starting with itself, as "%25". *)
Lemma escape_byte_cases (c : ascii) :
  (unreserved c = true /\ url.escape_byte c = String c "") \/
  (unreserved c = false /\
   exists h t, url.escape_byte c = String h t /\
               (h <> c \/ (h = "%"%char /\ c = "%"%char /\ t = "25")) /\
               (t = "" \/ String.length t = 2)).
Proof.
  destruct c as [[] [] [] [] [] [] [] []];
    first
      [ left; split; reflexivity
      | right; split; [reflexivity|];
        eexists _, _; split; [reflexivity|];
        split; [first [left; discriminate | right; repeat split; reflexivity]
               | first [left; reflexivity | right; reflexivity]] ].
Qed.

Lemma escape_byte_safe (c : ascii) :
  forallb url_safe (list_ascii_of_string (url.escape_byte c)) = true.
Proof. destruct c as [[] [] [] [] [] [] [] []]; reflexivity. Qed.

Lemma escape_byte_length (c : ascii) :
  1 <= String.length (url.escape_byte c) <= 3.
Proof.
  destruct (escape_byte_cases c) as [[_ ->]|[_ (h & t & -> & _ & [->| Ht])]];
    cbn [String.length]; lia.
Qed.

(** X8. The escaped source key is never shorter than the key and at
    most three times as long. *)
Theorem QueryEscape_length (src : string) :
  String.length src <= String.length (url.QueryEscape src) <= 3 * String.length src.
Proof.
  unfold url.QueryEscape. induction src as [|c src IH]; cbn [url.escape String.length].
  - lia.
  - rewrite length_append. pose proof (escape_byte_length c). lia.
Qed.

(** X9. The escaped source key is made of letters, digits and the
    bytes [-_.~%+] only.  It holds no slash, so the first slash after
    the bucket name is the one [CopyObject] puts there, and no space,
    hash, question mark, ampersand or equals sign. *)
Theorem QueryEscape_is_url_safe (src : string) :
  forallb url_safe (list_ascii_of_string (url.QueryEscape src)) = true /\
  forallb (fun c => negb (url_safe c)) (list_ascii_of_string "/ #?&=") = true.
Proof.
  split; [|reflexivity].
  unfold url.QueryEscape. induction src as [|c src IH]; cbn [url.escape].
  - reflexivity.
  - rewrite list_ascii_of_append, forallb_app, escape_byte_safe, IH. reflexivity.
Qed.

(** X10. Escaping changes a key exactly when the key holds a byte that
    is not unreserved: a key of letters, digits and [-_.~] is copied
    into the copy source as it is, any other key is not. *)
Theorem QueryEscape_fixes_unreserved_only (src : string) :
  String.eqb (url.QueryEscape src) src =
  forallb unreserved (list_ascii_of_string src).
Proof.
  unfold url.QueryEscape. induction src as [|c src IH]; cbn [url.escape].
  - reflexivity.
  - cbn [list_ascii_of_string forallb].
    destruct (escape_byte_cases c) as [[Hu ->]|[Hu (h & t & -> & Hh & Ht)]];
      rewrite Hu; cbn [append String.eqb andb].
    + destruct (Ascii.eqb_spec c c) as [_|Hc]; [exact IH | congruence].
    + destruct Hh as [Hne|(-> & -> & ->)].
      * destruct (Ascii.eqb_spec h c) as [Hc|_]; [congruence | reflexivity].
      * change (("25" ++ url.escape src =? src) = false).
        apply String.eqb_neq. intros Heq.
        apply (f_equal String.length) in Heq. cbn in Heq.
        pose proof (QueryEscape_length src) as Hlen. unfold url.QueryEscape in Hlen.
        lia.
Qed.

(** X11. Different source keys give different copy sources: on one
    handle, [CopyObject] never sends two keys to the same source. *)
Theorem CopyObject_copy_source_is_injective (T : Externals) (b : bucket.Bucket T)
    dest1 dest2 src1 src2 :
  src1 <> src2 ->
  s3.CopyObjectInput.CopySource (base_CopyObject b dest1 src1) <>
  s3.CopyObjectInput.CopySource (base_CopyObject b dest2 src2).
Proof.
  intros Hne Heq. apply Hne. cbn in Heq. injection Heq as Heq.
  apply append_cancel in Heq. cbn in Heq. injection Heq as Heq.
  pose proof (QueryUnescape_QueryEscape src1) as H1.
  pose proof (QueryUnescape_QueryEscape src2) as H2.
  rewrite Heq in H1. rewrite H1 in H2. injection H2 as H2. exact H2.
Qed.

(** ** The further properties on the test double *)

(** A png stored with a content type and a public ACL: one journal
    entry, that of the client. *)
Lemma PutObject_provided_options_have_no_side_effect_witness :
  bucket.PutObject "cat.png" double.bytes
    [option.ContentType (T:=double.Types) "image/png";
     option.ACLPublicRead (T:=double.Types)] double.start =
  Return (Some "stored", None)
         {| bucket.this := double.photos;
            bucket.world := ["PutObject photos/cat.png"] |}.
Proof.
  refine (eq_trans
            (proj1 (@PutObject_provided_options_have_no_side_effect
                      double.Types "cat.png" double.bytes _ double.start _))
            _).
  - repeat constructor.
  - reflexivity.
Defined.

(** [SSES3], then [SSEKMSKeyID]: as [SSEKMSKeyID] alone. *)
Lemma later_put_option_absorbs_earlier_witness :
  applied [option.SSES3 (T:=double.Types); option.SSEKMSKeyID (T:=double.Types) "key-1"]
          (base_PutObject double.photos "cat.png" double.bytes) [] =
  applied [option.SSEKMSKeyID (T:=double.Types) "key-1"]
          (base_PutObject double.photos "cat.png" double.bytes) [].
Proof.
  apply later_put_option_absorbs_earlier; try constructor.
  intros f Hf.
  destruct f; try refute_assigns;
    exists (base_PutObject double.photos "cat.png" double.bytes), []; discriminate.
Defined.

(** A private ACL and a content type, in either order. *)
Lemma put_options_on_different_fields_commute_witness :
  applied [option.ACLPrivate (T:=double.Types);
           option.ContentType (T:=double.Types) "text/plain"]
          (base_PutObject double.photos "notes.txt" double.bytes) [] =
  applied [option.ContentType (T:=double.Types) "text/plain";
           option.ACLPrivate (T:=double.Types)]
          (base_PutObject double.photos "notes.txt" double.bytes) [].
Proof.
  apply put_options_on_different_fields_commute; try constructor.
  intros f [H1 H2]. destruct f;
    first [ destruct H1 as (r & w & H1); apply H1; reflexivity
          | destruct H2 as (r & w & H2); apply H2; reflexivity ].
Defined.

(** Two content types with an ACL and an encryption mode after them:
    the second content type is the one sent. *)
Lemma last_assigning_put_option_decides_witness :
  read F_ContentType
       (fst (applied
               ([option.ContentType (T:=double.Types) "text/plain"] ++
                option.ContentType (T:=double.Types) "image/png" ::
                [option.ACLPrivate (T:=double.Types); option.SSES3 (T:=double.Types)])
               (base_PutObject double.photos "cat.png" double.bytes) [])) =
  StringField double.Types (Some "image/png").
Proof.
  refine (last_assigning_put_option_decides
            (o := option.ContentType (T:=double.Types) "image/png")
            (f := F_ContentType) _ _ _ _ _ _
            (base_PutObject double.photos "cat.png" double.bytes) []).
  - constructor.
  - exists (base_PutObject double.photos "cat.png" double.bytes), []. discriminate.
  - repeat (constructor; [split; [constructor | intros (r & w & H); apply H; reflexivity]|]).
    constructor.
Defined.

(** The key of the request is still there after two encryption options. *)
Lemma put_options_never_clear_a_field_witness :
  is_set (read F_Key
            (fst (applied [option.SSES3 (T:=double.Types);
                           option.SSEKMSKeyID (T:=double.Types) "key-1"]
                    (base_PutObject double.photos "cat.png" double.bytes) []))) = true.
Proof.
  apply put_options_never_clear_a_field.
  - repeat constructor.
  - reflexivity.
Defined.

(** A key id, then the provider-managed mode, then a private ACL. *)
Lemma PutObject_request_is_consistent_witness :
  acl_and_sse_consistent
    (fst (applied [option.SSEKMSKeyID (T:=double.Types) "key-1";
                   option.SSES3 (T:=double.Types);
                   option.ACLPrivate (T:=double.Types)]
            (base_PutObject double.photos "cat.png" double.bytes) [])).
Proof.
  apply PutObject_request_is_consistent. repeat constructor.
Defined.

(** A key with a space and a key with a plus sign: the space becomes a
    plus sign, and the plus sign does not stay one. *)
Lemma CopyObject_copy_source_is_injective_witness :
  s3.CopyObjectInput.CopySource (base_CopyObject double.photos "new.txt" "a b") <>
  s3.CopyObjectInput.CopySource (base_CopyObject double.photos "new.txt" "a+b").
Proof.
  apply CopyObject_copy_source_is_injective. discriminate.
Defined.

(** * The handle and the name it shares *)

Section Frames.

Variable T : Externals.
Variable R : pointers.Mem T -> pointers.Mem T -> Prop.
Hypothesis R_refl : forall m, R m m.
Hypothesis R_trans : forall m1 m2 m3, R m1 m2 -> R m2 m3 -> R m1 m3.
Hypothesis R_new : forall c m, R m (final_state (pointers.new c m)).

Lemma code_respects_ret A (a : A) : code_respects R (ret a).
Proof. intros m. apply R_refl. Qed.

Lemma code_respects_bind A B (c : pointers.Code T A) (k : A -> pointers.Code T B) :
  code_respects R c -> (forall a, code_respects R (k a)) ->
  code_respects R (bind c k).
Proof.
  intros Hc Hk m. unfold bind. specialize (Hc m).
  destruct (c m) as [a m'|reason m']; cbn in *.
  - exact (R_trans Hc (Hk a m')).
  - exact Hc.
Qed.

Variable b : pointers.bucket.Bucket T.

Lemma respects_ret A (a : A) : respects R b (ret a).
Proof. intros s Hs. cbn. split; [exact Hs | apply R_refl]. Qed.

Lemma respects_panic A reason : respects R b (@panic _ A reason).
Proof. intros s Hs. cbn. split; [exact Hs | apply R_refl]. Qed.

Lemma respects_bind A B (m : pointers.bucket.Method T A)
    (k : A -> pointers.bucket.Method T B) :
  respects R b m -> (forall a, respects R b (k a)) -> respects R b (bind m k).
Proof.
  intros Hm Hk s Hs. unfold bind. destruct (Hm s Hs) as [Hthis Hmem].
  destruct (m s) as [a s'|reason s']; cbn in *.
  - destruct (Hk a s' Hthis) as [Hthis' Hmem']. split; [exact Hthis'|].
    exact (R_trans Hmem Hmem').
  - split; assumption.
Qed.

(** Reading a field of the receiver gives the field of [b]. *)
Lemma respects_field A B (proj : pointers.bucket.Bucket T -> A)
    (k : A -> pointers.bucket.Method T B) :
  respects R b (k (proj b)) -> respects R b (bind (pointers.bucket.field proj) k).
Proof.
  intros Hk s Hs. unfold bind, pointers.bucket.field. rewrite Hs. apply Hk, Hs.
Qed.

Lemma respects_call A (c : pointers.Code T A) :
  code_respects R c -> respects R b (pointers.bucket.call c).
Proof.
  intros Hc s Hs. unfold pointers.bucket.call. specialize (Hc (pointers.bucket.mem s)).
  destruct (c (pointers.bucket.mem s)) as [a m|reason m]; cbn in *;
    split; assumption.
Qed.

Lemma respects_range_opts Req (opts : list (Req -> pointers.Code T Req)) :
  Forall (option_respects R) opts ->
  forall req, respects R b (pointers.bucket.range_opts opts req).
Proof.
  induction 1 as [|f opts Hf _ IH]; intros req; cbn [pointers.bucket.range_opts].
  - apply respects_ret.
  - apply respects_bind; [apply respects_call, Hf | exact IH].
Qed.

Lemma respects_String v : respects R b (pointers.bucket.call (pointers.aws.String v)).
Proof. apply respects_call. intros m. apply R_new. Qed.

Lemma respects_StringValue p :
  respects R b (pointers.bucket.call (pointers.aws.StringValue p)).
Proof. apply respects_call. intros m. apply R_refl. Qed.

Hypothesis client_ok : client_respects R (pointers.bucket.S3 b).

Ltac frame :=
  repeat first
    [ apply respects_field
    | apply respects_bind; [ | intros ? ]
    | apply respects_String
    | apply respects_StringValue
    | apply respects_range_opts; assumption
    | apply respects_call
    | progress cbv zeta ].

Lemma GetObject_respects key opts :
  Forall (option_respects R) opts ->
  respects R b (pointers.bucket.GetObject key opts).
Proof. intros Ho. unfold pointers.bucket.GetObject. frame. apply client_ok. Qed.

Lemma GetObjectReader_respects key opts :
  Forall (option_respects R) opts ->
  respects R b (pointers.bucket.GetObjectReader key opts).
Proof.
  intros Ho. unfold pointers.bucket.GetObjectReader.
  apply respects_bind; [apply GetObject_respects, Ho|].
  intros [[out|] [e|]]; cbn; first [apply respects_ret | apply respects_panic].
Qed.

Lemma GetObjectRequest_respects key opts :
  Forall (option_respects R) opts ->
  respects R b (pointers.bucket.GetObjectRequest key opts).
Proof. intros Ho. unfold pointers.bucket.GetObjectRequest. frame. apply client_ok. Qed.

Lemma HeadObject_respects key opts :
  Forall (option_respects R) opts ->
  respects R b (pointers.bucket.HeadObject key opts).
Proof. intros Ho. unfold pointers.bucket.HeadObject. frame. apply client_ok. Qed.

Lemma ExistsObject_respects key opts :
  Forall (option_respects R) opts ->
  respects R b (pointers.bucket.ExistsObject key opts).
Proof.
  intros Ho. unfold pointers.bucket.ExistsObject.
  apply respects_bind; [apply HeadObject_respects, Ho|].
  intros [out [[text|fragment|code message|rf]|]]; cbn; try apply respects_ret.
  destruct (awserr.StatusCode rf =? http.StatusNotFound)%Z; apply respects_ret.
Qed.

Lemma PutObject_respects key rs opts :
  Forall (option_respects R) opts ->
  respects R b (pointers.bucket.PutObject key rs opts).
Proof. intros Ho. unfold pointers.bucket.PutObject. frame. apply client_ok. Qed.

Lemma DeleteObject_respects key : respects R b (pointers.bucket.DeleteObject key).
Proof. unfold pointers.bucket.DeleteObject. frame. apply client_ok. Qed.

Lemma DeleteObjects_respects identifiers :
  respects R b (pointers.bucket.DeleteObjects identifiers).
Proof. unfold pointers.bucket.DeleteObjects. frame. apply client_ok. Qed.

Lemma ListObjects_respects prefix opts :
  Forall (option_respects R) opts ->
  respects R b (pointers.bucket.ListObjects prefix opts).
Proof. intros Ho. unfold pointers.bucket.ListObjects. frame. apply client_ok. Qed.

Lemma ListObjectsV2PagesWithContext_respects ctx prefix pageFunc opts :
  (forall page last, code_respects R (pageFunc page last)) ->
  Forall (option_respects R) opts ->
  respects R b (pointers.bucket.ListObjectsV2PagesWithContext ctx prefix pageFunc opts).
Proof.
  intros Hp Ho. unfold pointers.bucket.ListObjectsV2PagesWithContext. frame.
  apply client_ok, Hp.
Qed.

Lemma ListObjectVersionsPagesWithContext_respects ctx prefix pageFunc opts :
  (forall page last, code_respects R (pageFunc page last)) ->
  Forall (option_respects R) opts ->
  respects R b
    (pointers.bucket.ListObjectVersionsPagesWithContext ctx prefix pageFunc opts).
Proof.
  intros Hp Ho. unfold pointers.bucket.ListObjectVersionsPagesWithContext. frame.
  apply client_ok, Hp.
Qed.

Lemma CopyObject_respects dest src opts :
  Forall (option_respects R) opts ->
  respects R b (pointers.bucket.CopyObject dest src opts).
Proof. intros Ho. unfold pointers.bucket.CopyObject. frame. apply client_ok. Qed.

End Frames.

Section SharedCell.

Variable T : Externals.

Lemma same_cell_refl p (m : pointers.Mem T) : same_cell p m m.
Proof. intros H. split; [exact H | reflexivity]. Qed.

Lemma same_cell_trans p (m1 m2 m3 : pointers.Mem T) :
  same_cell p m1 m2 -> same_cell p m2 m3 -> same_cell p m1 m3.
Proof.
  intros H12 H23 H1. destruct (H12 H1) as [H2 E12].
  destruct (H23 H2) as [H3 E23]. split; [exact H3 | congruence].
Qed.

(** A fresh cell is not a cell that was there. *)
Lemma same_cell_new p c (m : pointers.Mem T) :
  same_cell p m (final_state (pointers.new c m)).
Proof.
  intros H. destruct p as [l|]; cbn in *.
  - split.
    + rewrite length_app. cbn. lia.
    + apply nth_error_app1. exact H.
  - split; [exact I | reflexivity].
Qed.

(** No provided option writes a cell that was there: each stores
    pointers to fresh cells. *)
Lemma provided_keeps_cells (o : pointers.option.PutObjectInput T) :
  pointers.option.Provided o -> forall p, option_keeps p o.
Proof.
  intros Ho p req.
  destruct Ho;
    unfold pointers.option.SSEKMSKeyID, pointers.option.SSES3,
      pointers.option.ACLPrivate, pointers.option.ACLPublicRead,
      pointers.option.ContentType, pointers.option.ContentLength;
    repeat first
      [ apply code_respects_ret; apply same_cell_refl
      | apply code_respects_bind; [apply same_cell_trans | | intros ?]
      | intros m; apply same_cell_new
      | progress cbv zeta ].
Qed.

Lemma anything_goes_client (c : pointers.s3iface.S3API T) :
  client_respects (fun _ _ => True) c.
Proof. repeat split. Qed.

Lemma anything_goes_options Req (opts : list (Req -> pointers.Code T Req)) :
  Forall (option_respects (fun _ _ => True)) opts.
Proof. apply Forall_forall. intros f _ req m. exact I. Qed.

(** What a method that respects the cell of the name leaves of the
    handle. *)
Lemma fields_kept A (mth : pointers.bucket.Method T A) (s : pointers.bucket.State T) :
  respects (fun _ _ => True) (pointers.bucket.this s) mth ->
  pointers.bucket.this (final_state (mth s)) = pointers.bucket.this s.
Proof. intros H. apply (H s eq_refl). Qed.

Lemma name_kept A (mth : pointers.bucket.Method T A) (s : pointers.bucket.State T) :
  respects (same_cell (pointers.bucket.Name (pointers.bucket.this s)))
           (pointers.bucket.this s) mth ->
  allocated (pointers.bucket.Name (pointers.bucket.this s)) (pointers.bucket.mem s) ->
  handle_name (final_state (mth s)) = handle_name s.
Proof.
  intros H Halloc. destruct (H s eq_refl) as [Hthis Hcell].
  destruct (Hcell Halloc) as [_ E]. unfold handle_name. rewrite Hthis, E. reflexivity.
Qed.

End SharedCell.

Ltac fields_part :=
  apply fields_kept;
  first [ apply GetObject_respects | apply GetObjectReader_respects
        | apply GetObjectRequest_respects | apply HeadObject_respects
        | apply ExistsObject_respects | apply PutObject_respects
        | apply DeleteObject_respects | apply DeleteObjects_respects
        | apply ListObjects_respects
        | apply ListObjectsV2PagesWithContext_respects
        | apply ListObjectVersionsPagesWithContext_respects
        | apply CopyObject_respects ];
  first [ exact (fun _ => I) | exact (fun _ _ _ _ _ => I)
        | exact (fun _ _ => I) | exact (fun _ _ _ => I)
        | apply anything_goes_client | apply anything_goes_options
        | intros; exact I ].

Ltac name_part :=
  intros; apply name_kept; [|assumption];
  first [ apply GetObject_respects | apply GetObjectReader_respects
        | apply GetObjectRequest_respects | apply HeadObject_respects
        | apply ExistsObject_respects | apply PutObject_respects
        | apply DeleteObject_respects | apply DeleteObjects_respects
        | apply ListObjects_respects
        | apply ListObjectsV2PagesWithContext_respects
        | apply ListObjectVersionsPagesWithContext_respects
        | apply CopyObject_respects ];
  first [ apply same_cell_refl | apply same_cell_trans | apply same_cell_new
        | assumption ].


(** The test double over the store writes the journal and no cell. *)
Lemma note_keeps p A op b k (a : A) : code_keeps p (shared.note op b k a).
Proof. intros m H. split; [exact H | reflexivity]. Qed.

Lemma shared_client_keeps p : client_keeps p shared.client.
Proof.
  unfold client_keeps, client_respects.
  repeat match goal with |- _ /\ _ => split end; intros;
    first
      [ intros m H; split; [exact H | reflexivity]
      | cbv [shared.client pointers.s3iface.ListObjectsV2PagesWithContext
             pointers.s3iface.ListObjectVersionsPagesWithContext];
        apply code_respects_bind;
        [apply same_cell_trans | auto | intros ?; apply note_keeps] ].
Qed.


